(** * QgsBox3D: the axis-aligned 3D box of src/core/geometry/qgsbox3d.cpp

    The C++ [double] is modelled as an IEEE 754 binary64 value through the
    executable specification of the Standard Library ([spec_float] with
    precision 53 and maximal exponent 1024), so that NaN, the infinities,
    the signed zeros and rounding behave as they do in the program.

    The methods of [QgsBox3D] are embedded from the source file.  What
    they call and the source files do not contain is either modelled from
    the specification, under a comment that says so (the operations of
    [QgsRectangle], the helper [qgsDoubleNear]), or taken as a parameter
    (the default of the constructor's [normalize] argument, the tolerance
    helper of the queries, [std::hypot], the collaborators of [toString],
    the containment tests and the union of [QgsRectangle], the emptiness
    of [QgsPoint]). *)

From Stdlib Require Import ZArith Bool List Lia String Ascii Permutation.
From Stdlib Require Import DecimalString.
From Stdlib Require Import SpecFloat.
Import ListNotations.

(** ** Binary64 arithmetic as the program uses it *)

Module Double.

Definition prec : Z := 53.
Definition emax : Z := 1024.

Definition double := spec_float.

Definition add : double -> double -> double := SFadd prec emax.
Definition sub : double -> double -> double := SFsub prec emax.
Definition mul : double -> double -> double := SFmul prec emax.
Definition div : double -> double -> double := SFdiv prec emax.
Definition sqrt : double -> double := SFsqrt prec emax.
Definition opp : double -> double := SFopp.
Definition fabs : double -> double := SFabs.

(** The comparison operators [<], [<=], [==] of C++ on doubles: every one
    of them is false as soon as an operand is NaN. *)
Definition ltb : double -> double -> bool := SFltb.
Definition leb : double -> double -> bool := SFleb.
Definition eqb : double -> double -> bool := SFeqb.
Definition gtb (a b : double) : bool := ltb b a.
Definition geb (a b : double) : bool := leb b a.

(** [std::isnan] *)
Definition isnan (x : double) : bool :=
  match x with S754_nan => true | _ => false end.

Definition is_finite (x : double) : bool :=
  match x with S754_zero _ | S754_finite _ _ _ => true | _ => false end.

(** A [spec_float] is a double when its mantissa and exponent are those
    of a binary64 number. *)
Definition valid (x : double) : bool := valid_binary prec emax x.

Definition nan : double := S754_nan.
Definition pinf : double := S754_infinity false.
Definition ninf : double := S754_infinity true.
Definition zero : double := S754_zero false.

(** [std::numeric_limits<double>::max()] *)
Definition DBL_MAX : double :=
  Eval cbv in SFmax_float prec emax.

(** The double of an integer (exact below 2^53). *)
Definition of_Z (z : Z) : double := binary_normalize prec emax z 0 false.

(** The literal 1.0 *)
Definition one : double := Eval vm_compute in of_Z 1.

(** [std::min(a, b)] is [(b < a) ? b : a] and [std::max(a, b)] is
    [(a < b) ? b : a]: when a comparison fails (NaN), the first
    argument is returned. *)
Definition std_min (a b : double) : double := if ltb b a then b else a.
Definition std_max (a b : double) : double := if ltb a b then b else a.

End Double.

Import Double.

Declare Scope double_scope.
Delimit Scope double_scope with D.
Infix "+" := add : double_scope.
Infix "-" := sub : double_scope.
Infix "*" := mul : double_scope.
Infix "/" := div : double_scope.
Infix "<?" := ltb : double_scope.
Infix "<=?" := leb : double_scope.
Infix ">?" := gtb : double_scope.
Infix ">=?" := geb : double_scope.
Infix "==?" := eqb (at level 70) : double_scope.
Notation "- x" := (opp x) : double_scope.

Local Open Scope double_scope.

(** ** The 2D rectangle collaborator

    [QgsRectangle] is declared outside the files under verification.  Its
    four fields with their accessors and setters are taken as the header
    declares them; the operations the box delegates to are modelled from
    the specification, each under a comment that says so. *)

Record QgsRectangle : Type := mkRect {
  mXmin : double;
  mYmin : double;
  mXmax : double;
  mYmax : double
}.

Module Rect.

(** [QgsRectangle( xmin, ymin, xmax, ymax, false )]: the four bounds are
    stored as given. *)
Definition make (xmin ymin xmax ymax : double) : QgsRectangle :=
  mkRect xmin ymin xmax ymax.

Definition xMinimum (r : QgsRectangle) : double := mXmin r.
Definition yMinimum (r : QgsRectangle) : double := mYmin r.
Definition xMaximum (r : QgsRectangle) : double := mXmax r.
Definition yMaximum (r : QgsRectangle) : double := mYmax r.

Definition setXMinimum (x : double) (r : QgsRectangle) : QgsRectangle :=
  mkRect x (mYmin r) (mXmax r) (mYmax r).
Definition setXMaximum (x : double) (r : QgsRectangle) : QgsRectangle :=
  mkRect (mXmin r) (mYmin r) x (mYmax r).
Definition setYMinimum (y : double) (r : QgsRectangle) : QgsRectangle :=
  mkRect (mXmin r) y (mXmax r) (mYmax r).
Definition setYMaximum (y : double) (r : QgsRectangle) : QgsRectangle :=
  mkRect (mXmin r) (mYmin r) (mXmax r) y.

(** Modelled from the spec: [QgsRectangle::setMinimal] is not in the
    source files.  The spec: the sentinel-inverted state has
    (xmin, ymin) = +DBL_MAX and (xmax, ymax) = -DBL_MAX. *)
Definition setMinimal (_ : QgsRectangle) : QgsRectangle :=
  mkRect DBL_MAX DBL_MAX (- DBL_MAX) (- DBL_MAX).

(** Modelled from the spec: [QgsRectangle::normalize] is not in the
    source files.  The spec: normalize swaps min/max per axis as needed
    so that min <= max, on x and y independently. *)
Definition normalize (r : QgsRectangle) : QgsRectangle :=
  let r := if mXmin r >? mXmax r
           then mkRect (mXmax r) (mYmin r) (mXmin r) (mYmax r) else r in
  let r := if mYmin r >? mYmax r
           then mkRect (mXmin r) (mYmax r) (mXmax r) (mYmin r) else r in
  r.

(** Modelled from the spec: [QgsRectangle::intersect] is not in the
    source files.  The spec: every 3D operation is a 2D operation plus
    the same operation on the z interval, and the intersection of two
    intervals is [max(min1, min2), min(max1, max2)], neither normalised
    nor validated. *)
Definition intersect (r other : QgsRectangle) : QgsRectangle :=
  mkRect (std_max (mXmin r) (mXmin other)) (std_max (mYmin r) (mYmin other))
         (std_min (mXmax r) (mXmax other)) (std_min (mYmax r) (mYmax other)).

(** Modelled from the spec: [QgsRectangle::intersects] is not in the
    source files.  The spec: two intervals overlap when
    max(min1, min2) <= min(max1, max2); the rectangles intersect when
    they do on x and on y. *)
Definition intersects (r other : QgsRectangle) : bool :=
  (std_max (mXmin r) (mXmin other) <=? std_min (mXmax r) (mXmax other))
  && (std_max (mYmin r) (mYmin other) <=? std_min (mYmax r) (mYmax other)).

(** Modelled from the spec: [QgsRectangle::combineExtentWith(x, y)] is
    not in the source files.  The spec: the union of an interval with a
    value is [min(min, v), max(max, v)], on x and y. *)
Definition combineExtentWith (x y : double) (r : QgsRectangle) : QgsRectangle :=
  mkRect (std_min (mXmin r) x) (std_min (mYmin r) y)
         (std_max (mXmax r) x) (std_max (mYmax r) y).

(** Modelled from the spec: [QgsRectangle::operator==] is not in the
    source files.  The spec: equality is the tolerance-based comparison,
    here of the four bounds, through the helper [near]. *)
Definition eq (near : double -> double -> bool) (r other : QgsRectangle) : bool :=
  near (mXmin r) (mXmin other) && near (mXmax r) (mXmax other)
  && near (mYmin r) (mYmin other) && near (mYmax r) (mYmax other).

(** Modelled from the spec: [width] and [height] are declared in the
    headers; they are the extents on x and on y. *)
Definition width (r : QgsRectangle) : double := mXmax r - mXmin r.
Definition height (r : QgsRectangle) : double := mYmax r - mYmin r.

End Rect.

(** Modelled from the spec: [qgsDoubleNear] is not in the source files.
    The spec: an explicit epsilon-based near-equality, a comparison of the
    distance of the two values with a tolerance; [epsilon] is that
    tolerance.  The comparison is the one of doubles: it fails when the
    difference is NaN. *)
Definition qgsDoubleNear (epsilon : double) (a b : double) : bool :=
  fabs (a - b) <=? epsilon.

(** ** The box *)

Record QgsBox3D : Type := mkBox {
  mBounds2d : QgsRectangle;
  mZmin : double;
  mZmax : double
}.

(** [QVector3D]: its coordinates are single-precision numbers, read here
    after their exact conversion to double. *)
Record QVector3D : Type := mkVector3D {
  vx : double;
  vy : double;
  vz : double
}.

(** Accessors and setters of the class. *)
Definition xMinimum (b : QgsBox3D) : double := Rect.xMinimum (mBounds2d b).
Definition xMaximum (b : QgsBox3D) : double := Rect.xMaximum (mBounds2d b).
Definition yMinimum (b : QgsBox3D) : double := Rect.yMinimum (mBounds2d b).
Definition yMaximum (b : QgsBox3D) : double := Rect.yMaximum (mBounds2d b).
Definition zMinimum (b : QgsBox3D) : double := mZmin b.
Definition zMaximum (b : QgsBox3D) : double := mZmax b.

Definition setXMinimum (x : double) (b : QgsBox3D) : QgsBox3D :=
  mkBox (Rect.setXMinimum x (mBounds2d b)) (mZmin b) (mZmax b).
Definition setXMaximum (x : double) (b : QgsBox3D) : QgsBox3D :=
  mkBox (Rect.setXMaximum x (mBounds2d b)) (mZmin b) (mZmax b).
Definition setYMinimum (y : double) (b : QgsBox3D) : QgsBox3D :=
  mkBox (Rect.setYMinimum y (mBounds2d b)) (mZmin b) (mZmax b).
Definition setYMaximum (y : double) (b : QgsBox3D) : QgsBox3D :=
  mkBox (Rect.setYMaximum y (mBounds2d b)) (mZmin b) (mZmax b).
Definition setZMinimum (z : double) (b : QgsBox3D) : QgsBox3D :=
  mkBox (mBounds2d b) z (mZmax b).
Definition setZMaximum (z : double) (b : QgsBox3D) : QgsBox3D :=
  mkBox (mBounds2d b) (mZmin b) z.

(** Every method that changes its receiver is a function from the receiver
    before the call to the receiver after it; the statements of the body
    are kept in their order. *)

(** [QgsBox3D::setMinimal] *)
Definition setMinimal (b : QgsBox3D) : QgsBox3D :=
  let b := mkBox (Rect.setMinimal (mBounds2d b)) (mZmin b) (mZmax b) in
  let b := setZMinimum DBL_MAX b in
  let b := setZMaximum (- DBL_MAX) b in
  b.

(** [QgsBox3D::normalize] *)
Definition normalize (b : QgsBox3D) : QgsBox3D :=
  let b := mkBox (Rect.normalize (mBounds2d b)) (mZmin b) (mZmax b) in
  let minTmp := std_min (mZmin b) (mZmax b) in
  let b := mkBox (mBounds2d b) (mZmin b) (std_max (mZmin b) (mZmax b)) in
  let b := mkBox (mBounds2d b) minTmp (mZmax b) in
  b.

(** The first constructor: the bounds are stored, and normalised when
    asked. *)
Definition new_QgsBox3D (xmin ymin zmin xmax ymax zmax : double)
    (normalize_arg : bool) : QgsBox3D :=
  let b := mkBox (Rect.make xmin ymin xmax ymax) zmin zmax in
  if normalize_arg then normalize b else b.

(** The six bounds as given, not normalised. *)
Definition box (xmin ymin zmin xmax ymax zmax : double) : QgsBox3D :=
  new_QgsBox3D xmin ymin zmin xmax ymax zmax false.

(** [QgsBox3D::isNull] *)
Definition isNull (b : QgsBox3D) : bool :=
  ( isnan (Rect.xMinimum (mBounds2d b)) && isnan (Rect.xMaximum (mBounds2d b))
    && isnan (Rect.yMinimum (mBounds2d b)) && isnan (Rect.xMaximum (mBounds2d b))
    && isnan (mZmin b) && isnan (mZmax b) )
  ||
  ( (Rect.xMinimum (mBounds2d b) ==? DBL_MAX)
    && (Rect.yMinimum (mBounds2d b) ==? DBL_MAX)
    && (mZmin b ==? DBL_MAX)
    && (Rect.xMaximum (mBounds2d b) ==? - DBL_MAX)
    && (Rect.yMaximum (mBounds2d b) ==? - DBL_MAX)
    && (mZmax b ==? - DBL_MAX) ).

(** [QgsBox3D::combineWith( double x, double y, double z )] *)
Definition combineWith (x y z : double) (b : QgsBox3D) : QgsBox3D :=
  let b := mkBox (Rect.combineExtentWith x y (mBounds2d b)) (mZmin b) (mZmax b) in
  let b := mkBox (mBounds2d b) (std_min (mZmin b) z) (mZmax b) in
  let b := mkBox (mBounds2d b) (mZmin b) (std_max (mZmax b) z) in
  b.

(** [QgsBox3D::scale( double scaleFactor, double centerX, double centerY,
    double centerZ )] *)
Definition scale (scaleFactor centerX centerY centerZ : double)
    (b : QgsBox3D) : QgsBox3D :=
  let b := setXMinimum (centerX + (xMinimum b - centerX) * scaleFactor) b in
  let b := setXMaximum (centerX + (xMaximum b - centerX) * scaleFactor) b in
  let b := setYMinimum (centerY + (yMinimum b - centerY) * scaleFactor) b in
  let b := setYMaximum (centerY + (yMaximum b - centerY) * scaleFactor) b in
  let b := setZMinimum (centerZ + (zMinimum b - centerZ) * scaleFactor) b in
  let b := setZMaximum (centerZ + (zMaximum b - centerZ) * scaleFactor) b in
  b.

Section Queries.

(** The tolerance comparison [qgsDoubleNear( a, b )] with its default
    tolerance, declared outside the source files: the queries below are
    stated for any such helper. *)
Variable near : double -> double -> bool.

(** The default value of the constructor's [normalize] argument, which
    the header declares. *)
Variable normalize_default : bool.

(** [std::hypot] with two and with three arguments, of the C++ standard
    library: the norm of its arguments, whose rounding and whose answers
    on NaN and on infinities differ from one implementation to another.
    The distance is stated for any such pair of functions. *)
Variable hypot : double -> double -> double.
Variable hypot3 : double -> double -> double -> double.

(** [QgsBox3D::intersect] *)
Definition intersect (this other : QgsBox3D) : QgsBox3D :=
  let intersect2d := Rect.intersect (mBounds2d this) (mBounds2d other) in
  let zMin := std_max (mZmin this) (mZmin other) in
  let zMax := std_min (mZmax this) (mZmax other) in
  new_QgsBox3D (Rect.xMinimum intersect2d) (Rect.yMinimum intersect2d) zMin
               (Rect.xMaximum intersect2d) (Rect.yMaximum intersect2d) zMax
               normalize_default.

(** [QgsBox3D::is2d] *)
Definition is2d (b : QgsBox3D) : bool :=
  near (mZmin b) (mZmax b) || (mZmin b >? mZmax b)
  || isnan (mZmin b) || isnan (mZmax b).

(** [QgsBox3D::is3D] *)
Definition is3D (b : QgsBox3D) : bool :=
  negb (is2d b) && negb (isNull b).

(** [QgsBox3D::intersects] *)
Definition intersects (this other : QgsBox3D) : bool :=
  if negb (Rect.intersects (mBounds2d this) (mBounds2d other)) then false
  else if is2d other || is2d this then true
  else
    let z1 := if mZmin this >? mZmin other then mZmin this else mZmin other in
    let z2 := if mZmax this <? mZmax other then mZmax this else mZmax other in
    z1 <=? z2.

(** [QgsBox3D::distanceTo] *)
Definition distanceTo (b : QgsBox3D) (point : QVector3D) : double :=
  let dx := std_max (Rect.xMinimum (mBounds2d b) - vx point)
                    (std_max zero (vx point - Rect.xMaximum (mBounds2d b))) in
  let dy := std_max (Rect.yMinimum (mBounds2d b) - vy point)
                    (std_max zero (vy point - Rect.yMaximum (mBounds2d b))) in
  if is2d b || isnan (vz point) then hypot dx dy
  else
    let dz := std_max (mZmin b - vz point)
                      (std_max zero (vz point - mZmax b)) in
    hypot3 dx dy dz.

(** [QgsBox3D::operator==] *)
Definition operator_eq (this other : QgsBox3D) : bool :=
  Rect.eq near (mBounds2d this) (mBounds2d other)
  && near (mZmin this) (mZmin other)
  && near (mZmax this) (mZmax other).

(** The gap of one axis and the distance as the specification words
    them: max(0, max(lowerBound - coord, coord - upperBound)), then the
    Euclidean norm of the gaps of x and y, and of z unless the box is 2D
    or the point has no z. *)
Definition axis_gap (lowerBound upperBound coord : double) : double :=
  std_max zero (std_max (lowerBound - coord) (coord - upperBound)).

Definition distance_of_gaps (b : QgsBox3D) (point : QVector3D) : double :=
  let gx := axis_gap (xMinimum b) (xMaximum b) (vx point) in
  let gy := axis_gap (yMinimum b) (yMaximum b) (vy point) in
  let gz := axis_gap (zMinimum b) (zMaximum b) (vz point) in
  if is2d b || isnan (vz point) then hypot gx gy else hypot3 gx gy gz.

(** Collaborators of [toString] that live outside the repository or
    outside the source files: [QgsRectangle::isEmpty], the rendering
    [QString::arg( double, 0, 'f', precision )] of one number, and
    [std::log10], [std::ceil] and the conversion [static_cast<int>]. *)
Variable rect_isEmpty : QgsRectangle -> bool.
Variable number_f : double -> Z -> string.
Variable log10 : double -> double.
Variable ceil : double -> double.
Variable static_cast_int : double -> Z.

(** [QgsBox3D::isEmpty] *)
Definition isEmpty (b : QgsBox3D) : bool :=
  (mZmax b <? mZmin b) || near (mZmax b) (mZmin b) || rect_isEmpty (mBounds2d b).

Definition width (b : QgsBox3D) : double := Rect.width (mBounds2d b).
Definition height (b : QgsBox3D) : double := Rect.height (mBounds2d b).

(** The value the local variable [precision] holds after the first
    [if] of [toString]. *)
Definition precision_used (b : QgsBox3D) (precision : Z) : Z :=
  if (precision <? 0)%Z then
    let precision := 0%Z in
    if ((width b <? of_Z 10) || (height b <? of_Z 10))
       && ((width b >? zero) && (height b >? zero))
    then
      let precision :=
        (static_cast_int
           (ceil (mul (opp one)
                      (log10 (std_min (width b) (height b))))) + 1)%Z in
      if (precision >? 20)%Z then 20%Z else precision
    else precision
  else precision.

(** [QgsBox3D::toString]; the six [arg] calls fill the markers %1 to %6
    of the pattern from left to right.  The debug message it logs on the
    way is left out. *)
Definition toString (b : QgsBox3D) (precision : Z) : string :=
  let precision := precision_used b precision in
  if isNull b then "Null"%string
  else if isEmpty b then "Empty"%string
  else
    (number_f (Rect.xMinimum (mBounds2d b)) precision ++ ","
     ++ number_f (Rect.yMinimum (mBounds2d b)) precision ++ ","
     ++ number_f (mZmin b) precision ++ " : "
     ++ number_f (Rect.xMaximum (mBounds2d b)) precision ++ ","
     ++ number_f (Rect.yMaximum (mBounds2d b)) precision ++ ","
     ++ number_f (mZmax b) precision)%string.

End Queries.

(** ** The remaining operations of the class *)

(** [QgsPoint] is declared outside the files under verification: the box
    reads its coordinates through [x()], [y()] and [z()], and asks it
    whether it is empty. *)
Record QgsPoint : Type := mkQgsPoint {
  mX : double;
  mY : double;
  mZ : double
}.

Module Point.

Definition x (p : QgsPoint) : double := mX p.
Definition y (p : QgsPoint) : double := mY p.
Definition z (p : QgsPoint) : double := mZ p.

End Point.

(** The constructor from two corner points. *)
Definition new_QgsBox3D_points (p1 p2 : QgsPoint) (normalize_arg : bool)
    : QgsBox3D :=
  let b := mkBox (Rect.make (Point.x p1) (Point.y p1) (Point.x p2) (Point.y p2))
                 (Point.z p1) (Point.z p2) in
  if normalize_arg then normalize b else b.

(** The constructor from a rectangle and a z range. *)
Definition new_QgsBox3D_rect (rect : QgsRectangle) (zMin zMax : double)
    (normalize_arg : bool) : QgsBox3D :=
  let b := mkBox rect zMin zMax in
  if normalize_arg then normalize b else b.

Section Containment.

Variable near : double -> double -> bool.

(** The three containment tests of the rectangle, declared outside the
    source files: of a rectangle, of a pair of coordinates, of a point. *)
Variable rect_contains : QgsRectangle -> QgsRectangle -> bool.
Variable rect_contains_xy : QgsRectangle -> double -> double -> bool.
Variable rect_contains_point : QgsRectangle -> QgsPoint -> bool.

(** [QgsBox3D::contains( const QgsBox3D &other )] *)
Definition contains_box (this other : QgsBox3D) : bool :=
  if negb (rect_contains (mBounds2d this) (mBounds2d other)) then false
  else if is2d near other || is2d near this then true
  else (mZmin other >=? mZmin this) && (mZmax other <=? mZmax this).

(** [QgsBox3D::contains( double x, double y, double z )] *)
Definition contains_xyz (this : QgsBox3D) (x y z : double) : bool :=
  if negb (rect_contains_xy (mBounds2d this) x y) then false
  else if isnan z || is2d near this then true
  else (mZmin this <=? z) && (z <=? mZmax this).

(** [QgsBox3D::contains( const QgsPoint &p )] *)
Definition contains_point (this : QgsBox3D) (p : QgsPoint) : bool :=
  if is3D near this
  then contains_xyz this (Point.x p) (Point.y p) (Point.z p)
  else rect_contains_point (mBounds2d this) p.

End Containment.

Section Union.

(** [QgsRectangle::combineExtentWith( const QgsRectangle & )], declared
    outside the source files: from its argument and the receiver before
    the call to the receiver after it. *)
Variable rect_combineExtentWith : QgsRectangle -> QgsRectangle -> QgsRectangle.

(** [QgsBox3D::combineWith( const QgsBox3D &box )] *)
Definition combineWith_box (box : QgsBox3D) (b : QgsBox3D) : QgsBox3D :=
  let b := mkBox (rect_combineExtentWith (mBounds2d box) (mBounds2d b))
                 (mZmin b) (mZmax b) in
  let b := mkBox (mBounds2d b) (std_min (mZmin b) (zMinimum box)) (mZmax b) in
  let b := mkBox (mBounds2d b) (mZmin b) (std_max (mZmax b) (zMaximum box)) in
  b.

End Union.

Section Scaling.

(** [QgsPoint::isEmpty], declared outside the source files. *)
Variable point_isEmpty : QgsPoint -> bool.

(** [QgsBox3D::scale( double scaleFactor, const QgsPoint &center )]; the
    integer 2 of the midpoints is converted to double. *)
Definition scale_point (scaleFactor : double) (center : QgsPoint)
    (b : QgsBox3D) : QgsBox3D :=
  let '(centerX, centerY, centerZ) :=
    if negb (point_isEmpty center)
    then (Point.x center, Point.y center, Point.z center)
    else ((xMinimum b + xMaximum b) / of_Z 2,
          (yMinimum b + yMaximum b) / of_Z 2,
          (zMinimum b + zMaximum b) / of_Z 2) in
  scale scaleFactor centerX centerY centerZ b.

End Scaling.

(** ** Objects in memory

    [intersect] is declared const and takes the other box by const
    reference.  To state what a call leaves untouched, the boxes alive at
    the call live in a memory, addressed by their position; the call
    reads its two operands there and builds its result in a fresh cell,
    where the constructor may normalise it in place. *)

Definition address : Type := nat.
Definition memory : Type := list QgsBox3D.

Definition load (h : memory) (p : address) : option QgsBox3D := nth_error h p.

Fixpoint store (h : memory) (p : address) (v : QgsBox3D) : memory :=
  match h, p with
  | [], _ => []
  | _ :: t, O => v :: t
  | x :: t, S p' => x :: store t p' v
  end.

Definition allocate (v : QgsBox3D) (h : memory) : address * memory :=
  (List.length h, h ++ [v]).

(** A method that changes its receiver, called on the object at [this]. *)
Definition call (method : QgsBox3D -> QgsBox3D) (this : address)
    (h : memory) : memory :=
  match load h this with
  | Some b => store h this (method b)
  | None => h
  end.

(** The first constructor, building the object in a fresh cell. *)
Definition construct (xmin ymin zmin xmax ymax zmax : double)
    (normalize_arg : bool) (h : memory) : address * memory :=
  let (this, h) := allocate (mkBox (Rect.make xmin ymin xmax ymax) zmin zmax) h in
  let h := if normalize_arg then call normalize this h else h in
  (this, h).

(** [QgsBox3D::intersect] called on the object at [this] with the object
    at [other]; the result is the address of the box it returns. *)
Definition intersect_call (normalize_default : bool) (this other : address)
    (h : memory) : option (address * memory) :=
  match load h this, load h other with
  | Some a, Some b =>
      let intersect2d := Rect.intersect (mBounds2d a) (mBounds2d b) in
      let zMin := std_max (mZmin a) (mZmin b) in
      let zMax := std_min (mZmax a) (mZmax b) in
      Some (construct (Rect.xMinimum intersect2d) (Rect.yMinimum intersect2d) zMin
                      (Rect.xMaximum intersect2d) (Rect.yMaximum intersect2d) zMax
                      normalize_default h)
  | _, _ => None
  end.

(** ** The vocabulary of the specification *)

(** A finite double: a binary64 number that is neither NaN nor infinite. *)
Definition finite_double (x : double) : bool := valid x && is_finite x.

(** The two ways of being null, as the specification words them. *)
Definition all_bounds_nan (b : QgsBox3D) : Prop :=
  xMinimum b = nan /\ xMaximum b = nan /\ yMinimum b = nan /\
  yMaximum b = nan /\ zMinimum b = nan /\ zMaximum b = nan.

Definition sentinel_inverted (b : QgsBox3D) : Prop :=
  xMinimum b = DBL_MAX /\ yMinimum b = DBL_MAX /\ zMinimum b = DBL_MAX /\
  xMaximum b = - DBL_MAX /\ yMaximum b = - DBL_MAX /\ zMaximum b = - DBL_MAX.

(** min <= max on each axis. *)
Definition ordered (b : QgsBox3D) : Prop :=
  (xMinimum b <=? xMaximum b) = true /\
  (yMinimum b <=? yMaximum b) = true /\
  (zMinimum b <=? zMaximum b) = true.

(** No bound is NaN. *)
Definition nan_free (b : QgsBox3D) : Prop :=
  isnan (xMinimum b) = false /\ isnan (yMinimum b) = false /\
  isnan (zMinimum b) = false /\ isnan (xMaximum b) = false /\
  isnan (yMaximum b) = false /\ isnan (zMaximum b) = false.

(** No bound of the rectangle is NaN. *)
Definition xy_nan_free (b : QgsBox3D) : Prop :=
  isnan (xMinimum b) = false /\ isnan (yMinimum b) = false /\
  isnan (xMaximum b) = false /\ isnan (yMaximum b) = false.

(** The all-NaN box, one of the two null states of the specification. *)
Definition null_box : QgsBox3D := box nan nan nan nan nan nan.

(** Every bound is a finite number. *)
Definition finite_bounds (b : QgsBox3D) : Prop :=
  is_finite (xMinimum b) = true /\ is_finite (yMinimum b) = true /\
  is_finite (zMinimum b) = true /\ is_finite (xMaximum b) = true /\
  is_finite (yMaximum b) = true /\ is_finite (zMaximum b) = true.

(** The six bounds are binary64 numbers. *)
Definition valid_box (b : QgsBox3D) : Prop :=
  valid (xMinimum b) = true /\ valid (yMinimum b) = true /\
  valid (zMinimum b) = true /\ valid (xMaximum b) = true /\
  valid (yMaximum b) = true /\ valid (zMaximum b) = true.

(** The three coordinates of a point are finite doubles. *)
Definition finite_vector (p : QVector3D) : Prop :=
  finite_double (vx p) = true /\ finite_double (vy p) = true /\
  finite_double (vz p) = true.

(** The point lies within the bounds on the three axes. *)
Definition inside (b : QgsBox3D) (p : QVector3D) : Prop :=
  (xMinimum b <=? vx p) = true /\ (vx p <=? xMaximum b) = true /\
  (yMinimum b <=? vy p) = true /\ (vy p <=? yMaximum b) = true /\
  (zMinimum b <=? vz p) = true /\ (vz p <=? zMaximum b) = true.

(** The six bounds are finite doubles. *)
Definition finite_box (b : QgsBox3D) : Prop :=
  finite_double (xMinimum b) = true /\ finite_double (yMinimum b) = true /\
  finite_double (zMinimum b) = true /\ finite_double (xMaximum b) = true /\
  finite_double (yMaximum b) = true /\ finite_double (zMaximum b) = true.

(** The six bounds of two boxes are equal as doubles ([==]). *)
Definition same_bounds (a b : QgsBox3D) : Prop :=
  (xMinimum a ==? xMinimum b) = true /\ (yMinimum a ==? yMinimum b) = true /\
  (zMinimum a ==? zMinimum b) = true /\ (xMaximum a ==? xMaximum b) = true /\
  (yMaximum a ==? yMaximum b) = true /\ (zMaximum a ==? zMaximum b) = true.

(** [m] is the least (the greatest) value of a sequence. *)
Definition is_minimum (m : double) (vs : list double) : Prop :=
  In m vs /\ forall v, In v vs -> (m <=? v) = true.

Definition is_maximum (m : double) (vs : list double) : Prop :=
  In m vs /\ forall v, In v vs -> (v <=? m) = true.

(** A point given by its three coordinates, and the accumulation of
    the specification: [combineWith( x, y, z )] called once per point, in
    the order of the sequence. *)
Definition point : Type := (double * double * double)%type.
Definition px (p : point) : double := fst (fst p).
Definition py (p : point) : double := snd (fst p).
Definition pz (p : point) : double := snd p.

(** The three coordinates of a point are finite doubles. *)
Definition finite_point (p : point) : Prop :=
  finite_double (px p) = true /\ finite_double (py p) = true /\
  finite_double (pz p) = true.

Definition combineAll (pts : list point) (b : QgsBox3D) : QgsBox3D :=
  fold_left (fun acc p => combineWith (px p) (py p) (pz p) acc) pts b.

(** The pattern "xmin,ymin,zmin : xmax,ymax,zmax", each bound rendered by
    [number_f] at one precision. *)
Definition rendered (number_f : double -> Z -> string) (b : QgsBox3D)
    (precision : Z) : string :=
  (String.concat ","
     [number_f (xMinimum b) precision; number_f (yMinimum b) precision;
      number_f (zMinimum b) precision]
   ++ " : "
   ++ String.concat ","
     [number_f (xMaximum b) precision; number_f (yMaximum b) precision;
      number_f (zMaximum b) precision])%string.

(** The number of decimals derived from a magnitude [m]: none unless
    0 < m < 10, else ceil(-log10(m)) + 1, at most 20. *)
Definition decimals_for (log10 ceil : double -> double)
    (static_cast_int : double -> Z) (m : double) : Z :=
  if (zero <? m) && (m <? of_Z 10)
  then Z.min 20 (static_cast_int (ceil (opp one * log10 m)) + 1)
  else 0%Z.

(** The value of a finite double in units of 2^-1074, the least positive
    double: an integer for every binary64 number. *)
Definition ulps (x : double) : Z :=
  match x with
  | S754_finite s m e => cond_Zopp s (Zpos m * 2 ^ (e + 1074))
  | _ => 0%Z
  end.

(** The exact difference of two finite doubles is itself a double. *)
Definition exact_difference (x c : double) : Prop :=
  exists d, finite_double d = true /\ ulps d = (ulps x - ulps c)%Z.

(** No difference bound - center rounds. *)
Definition exact_differences (b : QgsBox3D) (cx cy cz : double) : Prop :=
  exact_difference (xMinimum b) cx /\ exact_difference (xMaximum b) cx /\
  exact_difference (yMinimum b) cy /\ exact_difference (yMaximum b) cy /\
  exact_difference (zMinimum b) cz /\ exact_difference (zMaximum b) cz.

(** Every difference bound - center, as the program computes it, is a
    finite number. *)
Definition finite_differences (b : QgsBox3D) (cx cy cz : double) : Prop :=
  is_finite (xMinimum b - cx) = true /\ is_finite (xMaximum b - cx) = true /\
  is_finite (yMinimum b - cy) = true /\ is_finite (yMaximum b - cy) = true /\
  is_finite (zMinimum b - cz) = true /\ is_finite (zMaximum b - cz) = true.

(** The box is the single point (cx, cy, cz). *)
Definition collapsed (b : QgsBox3D) (cx cy cz : double) : Prop :=
  (xMinimum b ==? cx) = true /\ (xMaximum b ==? cx) = true /\
  (yMinimum b ==? cy) = true /\ (yMaximum b ==? cy) = true /\
  (zMinimum b ==? cz) = true /\ (zMaximum b ==? cz) = true.

(** The gap of one axis as the program nests it. *)
Definition nested_gap (lowerBound upperBound coord : double) : double :=
  std_max (lowerBound - coord) (std_max zero (coord - upperBound)).

(** What the statements about the distance ask of [std::hypot]: that it
    does not tell +0 from -0, and that the norm of zeros is +0. *)
Definition ignores_sign_of_zero (hypot : double -> double -> double)
    (hypot3 : double -> double -> double -> double) : Prop :=
  (forall x x' y y',
     (x ==? x') = true -> (y ==? y') = true -> hypot x y = hypot x' y') /\
  (forall x x' y y' z z',
     (x ==? x') = true -> (y ==? y') = true -> (z ==? z') = true ->
     hypot3 x y z = hypot3 x' y' z').

Definition zero_at_origin (hypot : double -> double -> double)
    (hypot3 : double -> double -> double -> double) : Prop :=
  hypot zero zero = zero /\ hypot3 zero zero zero = zero.

(** ** Statements of the specification that the program does not satisfy
       as they stand *)

(** The general part of C3 as it is stated, at one box and one point. *)
Definition distance_claim (near : double -> double -> bool)
    (hypot : double -> double -> double)
    (hypot3 : double -> double -> double -> double)
    (b : QgsBox3D) (p : QVector3D) : Prop :=
  distanceTo near hypot hypot3 b p = distance_of_gaps near hypot hypot3 b p /\
  (inside b p -> distanceTo near hypot hypot3 b p = zero).

(** C4 as the specification states it, at one box. *)
Definition normalize_claim (b : QgsBox3D) : Prop :=
  normalize (normalize b) = normalize b /\ ordered (normalize b).

(** C5 as the specification states it, at one box and one center. *)
Definition scale_claim (b : QgsBox3D) (cx cy cz : double) : Prop :=
  same_bounds (scale one cx cy cz b) b /\
  collapsed (scale zero cx cy cz b) cx cy cz.

(** The symmetry of intersects and of intersect, as the specification
    states it, at two boxes. *)
Definition symmetry_claim (near : double -> double -> bool) (flag : bool)
    (A B : QgsBox3D) : Prop :=
  intersects near A B = intersects near B A /\
  same_bounds (intersect flag A B) (intersect flag B A).

(** The reflexivity of [==] as C8 states it, at one box. *)
Definition reflexivity_claim (near : double -> double -> bool)
    (b : QgsBox3D) : Prop :=
  (nan_free b -> operator_eq near b b = true) /\
  (isnan (zMinimum b) = true \/ isnan (zMaximum b) = true ->
   operator_eq near b b = false).

(** ** Concrete collaborators for the examples

    The statements about [toString] hold for any collaborators; these
    ones make the examples run. *)

(** A concrete tolerance for the examples: four units of machine
    epsilon, 2^-50. *)
Definition four_epsilon : double := S754_finite false 4503599627370496 (-102).

(** Norms for the examples.  With two arguments, the root of the sum of
    the squares; with three, the scaled form of the GNU C++ library: the
    arguments are divided by the greatest of their magnitudes [a] before
    they are squared, and the root is multiplied by [a]; when [a] is zero
    the norm is zero. *)
Definition hypot_model (x y : double) : double := sqrt (x * x + y * y).

Definition hypot3_model (x y z : double) : double :=
  let x := fabs x in
  let y := fabs y in
  let z := fabs z in
  let a := if x <? y then (if y <? z then z else y)
           else (if x <? z then z else x) in
  if negb (a ==? zero)
  then a * sqrt ((x / a) * (x / a) + (y / a) * (y / a) + (z / a) * (z / a))
  else zero.

(** Modelled from the spec: [QgsRectangle::isEmpty] is not in the source
    files.  The spec: a box is empty when max < min or max is near min on
    an axis; for the rectangle, on x or on y. *)
Definition rect_isEmpty_model (near : double -> double -> bool)
    (r : QgsRectangle) : bool :=
  (mXmax r <? mXmin r) || near (mXmax r) (mXmin r)
  || (mYmax r <? mYmin r) || near (mYmax r) (mYmin r).

(** [std::ceil], which is exact. *)
Definition ceil_model (x : double) : double :=
  match x with
  | S754_finite s m e =>
      if (0 <=? e)%Z then x
      else
        let d := (2 ^ (- e))%Z in
        let q := (Zpos m / d)%Z in
        let r := (Zpos m mod d)%Z in
        if s then (if (q =? 0)%Z then S754_zero true else of_Z (- q))
        else of_Z (if (r =? 0)%Z then q else q + 1)
  | _ => x
  end.

(** [static_cast<int>] of a finite double within the range of int: the
    fraction is dropped.  (Elsewhere the conversion is undefined; 0 stands
    for it.) *)
Definition static_cast_int_model (x : double) : Z :=
  match x with
  | S754_finite s m e =>
      cond_Zopp s (if (0 <=? e)%Z then Zpos m * 2 ^ e else Zpos m / 2 ^ (- e))%Z
  | _ => 0%Z
  end.

(** A stand-in for [std::log10] on positive finite doubles: the exact
    logarithm rounded down to an integer, found by comparing with powers
    of ten.  ceil(-log10(m)) computed from it is the one the exact
    logarithm gives. *)
Definition pow10_le (k : Z) (m : positive) (e : Z) : bool :=
  (10 ^ Z.max k 0 * 2 ^ Z.max (- e) 0
   <=? Zpos m * 2 ^ Z.max e 0 * 10 ^ Z.max (- k) 0)%Z.

Fixpoint floor_log10_from (fuel : nat) (k : Z) (m : positive) (e : Z) : Z :=
  match fuel with
  | O => k
  | S fuel' => if pow10_le k m e then k else floor_log10_from fuel' (k - 1) m e
  end.

Definition log10_floor (x : double) : double :=
  match x with
  | S754_finite false m e => of_Z (floor_log10_from 640 309 m e)
  | S754_finite true _ _ => nan
  | S754_zero _ => ninf
  | S754_infinity false => pinf
  | S754_infinity true => nan
  | S754_nan => nan
  end.

(** The rendering of one number in fixed notation with [precision]
    decimals, the exact value rounded to even. *)
Definition decimal (n : Z) : string := NilZero.string_of_uint (N.to_uint (Z.to_N n)).

Fixpoint zeros (n : nat) : string :=
  match n with O => EmptyString | S n' => String "0" (zeros n') end.

Definition fixed_digits (n : Z) (precision : Z) : string :=
  let p := Z.max precision 0 in
  let int_part := decimal (n / 10 ^ p) in
  let frac := decimal (n mod 10 ^ p) in
  if (p =? 0)%Z then int_part
  else (int_part ++ "."
        ++ zeros (Z.to_nat p - String.length frac) ++ frac)%string.

Definition round_half_even (num den : Z) : Z :=
  let q := (num / den)%Z in
  let r := (num mod den)%Z in
  match (2 * r ?= den)%Z with
  | Lt => q
  | Gt => (q + 1)%Z
  | Eq => if Z.even q then q else (q + 1)%Z
  end.

Definition number_f_model (x : double) (precision : Z) : string :=
  let p := Z.max precision 0 in
  let sign (s : bool) := if s then "-"%string else EmptyString in
  match x with
  | S754_nan => "nan"%string
  | S754_infinity s => (sign s ++ "inf")%string
  | S754_zero s => (sign s ++ fixed_digits 0 p)%string
  | S754_finite s m e =>
      (sign s ++
       fixed_digits
         (round_half_even (Zpos m * 2 ^ Z.max e 0 * 10 ^ p) (2 ^ Z.max (- e) 0))
         p)%string
  end.

(** ** Collaborators for the examples of these operations

    The statements hold for any collaborators; the examples run with the
    inclusive interval tests, the union of intervals, and a point that is
    empty when x or y is NaN. *)

Definition rect_contains_xy_model (r : QgsRectangle) (x y : double) : bool :=
  (mXmin r <=? x) && (x <=? mXmax r) && (mYmin r <=? y) && (y <=? mYmax r).

Definition rect_contains_model (r other : QgsRectangle) : bool :=
  (mXmin r <=? mXmin other) && (mXmax other <=? mXmax r)
  && (mYmin r <=? mYmin other) && (mYmax other <=? mYmax r).

Definition rect_contains_point_model (r : QgsRectangle) (p : QgsPoint) : bool :=
  rect_contains_xy_model r (Point.x p) (Point.y p).

Definition rect_combineExtentWith_model (rect r : QgsRectangle) : QgsRectangle :=
  mkRect (std_min (mXmin r) (mXmin rect)) (std_min (mYmin r) (mYmin rect))
         (std_max (mXmax r) (mXmax rect)) (std_max (mYmax r) (mYmax rect)).

Definition point_isEmpty_model (p : QgsPoint) : bool :=
  isnan (Point.x p) || isnan (Point.y p).

(** The cube of side 10 at the origin, and the tolerance of the examples. *)
Definition cube10 : QgsBox3D :=
  box zero zero zero (of_Z 10) (of_Z 10) (of_Z 10).

Definition near_model : double -> double -> bool := qgsDoubleNear four_epsilon.

(** ** Vocabulary of the proofs *)

Definition not_nan (v : double) : Prop := isnan v = false.

(** The result of a rounding carries the sign it was given. *)
Definition signed (s : bool) (r : spec_float) : Prop :=
  match r with
  | S754_zero s' | S754_infinity s' | S754_finite s' _ _ => s' = s
  | S754_nan => False
  end.

(** Case analysis on the comparisons of exponents and mantissas. *)
Ltac split_compares :=
  repeat match goal with
  | |- context [Pos.compare_cont Eq ?a ?b] =>
      change (Pos.compare_cont Eq a b) with (Pos.compare a b)
  end;
  repeat match goal with
  | |- context [Z.compare ?a ?b] => destruct (Z.compare_spec a b)
  | |- context [Pos.compare ?a ?b] => destruct (Pos.compare_spec a b)
  end.

Ltac by_cases :=
  simpl; split_compares; simpl;
  try first [ reflexivity | discriminate | lia | congruence ];
  intros; subst;
  try first [ reflexivity | discriminate | lia | congruence ].

Ltac unfold_cmp :=
  unfold gtb, geb, ltb, leb, eqb, SFltb, SFleb, SFeqb in *.

(** * Properties *)

(** ** The order of doubles *)

Module Order.

Lemma compare_none x y :
  SFcompare x y = None <-> isnan x = true \/ isnan y = true.
Proof.
  destruct x, y; simpl; split; intros H;
    try discriminate; try reflexivity; try tauto;
    destruct H; discriminate.
Qed.

Lemma compare_antisym x y :
  SFcompare y x = option_map CompOpp (SFcompare x y).
Proof.
  destruct x as [[]|[]| |[] m1 e1], y as [[]|[]| |[] m2 e2]; try reflexivity;
    simpl; rewrite (Z.compare_antisym e1 e2);
    change (Pos.compare_cont Eq m2 m1) with (Pos.compare m2 m1);
    change (Pos.compare_cont Eq m1 m2) with (Pos.compare m1 m2);
    rewrite (Pos.compare_antisym m1 m2);
    destruct (Z.compare e1 e2); simpl; try reflexivity;
    destruct (Pos.compare m1 m2); reflexivity.
Qed.

Lemma compare_eq_l x y z :
  SFcompare x y = Some Eq -> SFcompare x z = SFcompare y z.
Proof.
  destruct x as [[]|[]| |[] m1 e1], y as [[]|[]| |[] m2 e2];
    try discriminate; try reflexivity;
    destruct z as [[]|[]| |[] m3 e3]; try reflexivity; try discriminate;
    by_cases.
Qed.

Lemma compare_lt_trans x y z :
  SFcompare x y = Some Lt -> SFcompare y z = Some Lt ->
  SFcompare x z = Some Lt.
Proof.
  destruct x as [[]|[]| |[] m1 e1], y as [[]|[]| |[] m2 e2];
    try discriminate;
    destruct z as [[]|[]| |[] m3 e3]; try reflexivity; try discriminate;
    by_cases.
Qed.

Lemma compare_refl x : isnan x = false -> SFcompare x x = Some Eq.
Proof.
  destruct x as [[]|[]| |[] m e]; try discriminate; try reflexivity;
    intros _; simpl; rewrite Z.compare_refl;
    change (Pos.compare_cont Eq m m) with (Pos.compare m m);
    rewrite Pos.compare_refl; reflexivity.
Qed.

Lemma compare_eq_r x y z :
  SFcompare x y = Some Eq -> SFcompare z x = SFcompare z y.
Proof.
  intros H. rewrite (compare_antisym x z), (compare_antisym y z).
  now rewrite (compare_eq_l _ _ z H).
Qed.

Lemma compare_eq_sym x y :
  SFcompare x y = Some Eq -> SFcompare y x = Some Eq.
Proof. intros H. now rewrite compare_antisym, H. Qed.

Lemma compare_gt_lt x y :
  SFcompare x y = Some Gt <-> SFcompare y x = Some Lt.
Proof.
  rewrite (compare_antisym x y).
  destruct (SFcompare x y) as [[]|]; simpl; split; congruence.
Qed.

Lemma compare_some x y :
  isnan x = false -> isnan y = false -> exists c, SFcompare x y = Some c.
Proof.
  intros Hx Hy. destruct (SFcompare x y) as [c|] eqn:E; [now exists c|].
  apply compare_none in E. destruct E; congruence.
Qed.

Lemma leb_not_nan a b :
  (a <=? b) = true -> isnan a = false /\ isnan b = false.
Proof.
  unfold_cmp. destruct (SFcompare a b) eqn:E; [|discriminate].
  intros _. destruct a, b; try discriminate; auto.
Qed.

Lemma ltb_not_nan a b :
  (a <? b) = true -> isnan a = false /\ isnan b = false.
Proof.
  unfold_cmp. destruct (SFcompare a b) eqn:E; [|discriminate].
  intros _. destruct a, b; try discriminate; auto.
Qed.

Lemma eqb_not_nan a b :
  (a ==? b) = true -> isnan a = false /\ isnan b = false.
Proof.
  unfold_cmp. destruct (SFcompare a b) eqn:E; [|discriminate].
  intros _. destruct a, b; try discriminate; auto.
Qed.

Lemma eqb_refl a : isnan a = false -> (a ==? a) = true.
Proof. intros H. unfold_cmp. now rewrite compare_refl. Qed.

Lemma eqb_sym a b : (a ==? b) = true -> (b ==? a) = true.
Proof.
  unfold_cmp. rewrite (compare_antisym a b).
  destruct (SFcompare a b) as [[]|]; simpl; congruence.
Qed.

Lemma eqb_compare a b : (a ==? b) = true <-> SFcompare a b = Some Eq.
Proof.
  unfold_cmp. destruct (SFcompare a b) as [[]|]; split; congruence.
Qed.

Lemma eqb_trans a b c :
  (a ==? b) = true -> (b ==? c) = true -> (a ==? c) = true.
Proof.
  rewrite !eqb_compare. intros H1 H2. now rewrite (compare_eq_l _ _ c H1).
Qed.

Lemma ltb_asym a b : (a <? b) = true -> (b <? a) = false.
Proof.
  unfold_cmp. rewrite (compare_antisym a b).
  destruct (SFcompare a b) as [[]|]; simpl; congruence.
Qed.

Lemma ltb_leb a b : (a <? b) = true -> (a <=? b) = true.
Proof. unfold_cmp. destruct (SFcompare a b) as [[]|]; congruence. Qed.

Lemma eqb_leb a b : (a ==? b) = true -> (a <=? b) = true.
Proof. unfold_cmp. destruct (SFcompare a b) as [[]|]; congruence. Qed.

Lemma not_ltb_leb a b :
  isnan a = false -> isnan b = false -> (a <? b) = false -> (b <=? a) = true.
Proof.
  intros Ha Hb. destruct (compare_some a b Ha Hb) as [c E].
  unfold_cmp. rewrite (compare_antisym a b), E.
  destruct c; simpl; congruence.
Qed.

Lemma leb_not_ltb a b : (a <=? b) = true -> (b <? a) = false.
Proof.
  unfold_cmp. rewrite (compare_antisym a b).
  destruct (SFcompare a b) as [[]|]; simpl; congruence.
Qed.

Lemma leb_refl a : isnan a = false -> (a <=? a) = true.
Proof. intros H. unfold_cmp. now rewrite compare_refl. Qed.

Lemma leb_trans a b c :
  (a <=? b) = true -> (b <=? c) = true -> (a <=? c) = true.
Proof.
  unfold_cmp.
  destruct (SFcompare a b) as [[]|] eqn:E1; try discriminate;
    destruct (SFcompare b c) as [[]|] eqn:E2; try discriminate; intros _ _.
  - now rewrite (compare_eq_l _ _ c E1), E2.
  - now rewrite (compare_eq_l _ _ c E1), E2.
  - now rewrite <- (compare_eq_r _ _ a E2), E1.
  - now rewrite (compare_lt_trans _ _ _ E1 E2).
Qed.

Lemma leb_antisym a b :
  (a <=? b) = true -> (b <=? a) = true -> (a ==? b) = true.
Proof.
  unfold_cmp. rewrite (compare_antisym a b).
  destruct (SFcompare a b) as [[]|]; simpl; congruence.
Qed.

Lemma leb_eqb_compat a a' b b' :
  (a ==? a') = true -> (b ==? b') = true -> (a <=? b) = (a' <=? b').
Proof.
  rewrite !eqb_compare. intros Ha Hb. unfold_cmp.
  now rewrite (compare_eq_l _ _ b Ha), (compare_eq_r _ _ a' Hb).
Qed.

Lemma ltb_eqb_compat a a' b b' :
  (a ==? a') = true -> (b ==? b') = true -> (a <? b) = (a' <? b').
Proof.
  rewrite !eqb_compare. intros Ha Hb. unfold_cmp.
  now rewrite (compare_eq_l _ _ b Ha), (compare_eq_r _ _ a' Hb).
Qed.

(** [==] identifies the two zeros and nothing else. *)
Lemma eqb_finite_eq a s m e :
  (a ==? S754_finite s m e) = true -> a = S754_finite s m e.
Proof.
  unfold_cmp.
  destruct a as [[]|[]| |[] m1 e1], s; simpl; try discriminate;
    destruct (Z.compare_spec e1 e); try discriminate;
    change (Pos.compare_cont Eq m1 m) with (Pos.compare m1 m);
    destruct (Pos.compare_spec m1 m); try discriminate; intros _; congruence.
Qed.

(** [std::min] and [std::max] select one of their arguments. *)
Lemma std_min_cases a b : std_min a b = a \/ std_min a b = b.
Proof. unfold std_min. destruct (b <? a); auto. Qed.

Lemma std_max_cases a b : std_max a b = a \/ std_max a b = b.
Proof. unfold std_max. destruct (a <? b); auto. Qed.

Lemma std_min_not_nan a b :
  isnan a = false -> isnan b = false -> isnan (std_min a b) = false.
Proof. intros. destruct (std_min_cases a b) as [-> | ->]; assumption. Qed.

Lemma std_max_not_nan a b :
  isnan a = false -> isnan b = false -> isnan (std_max a b) = false.
Proof. intros. destruct (std_max_cases a b) as [-> | ->]; assumption. Qed.

Lemma std_min_le_l a b :
  isnan a = false -> isnan b = false -> (std_min a b <=? a) = true.
Proof.
  intros Ha Hb. unfold std_min. destruct (b <? a) eqn:E.
  - now apply ltb_leb.
  - now apply leb_refl.
Qed.

Lemma std_min_le_r a b :
  isnan a = false -> isnan b = false -> (std_min a b <=? b) = true.
Proof.
  intros Ha Hb. unfold std_min. destruct (b <? a) eqn:E.
  - now apply leb_refl.
  - now apply not_ltb_leb.
Qed.

Lemma std_max_ge_l a b :
  isnan a = false -> isnan b = false -> (a <=? std_max a b) = true.
Proof.
  intros Ha Hb. unfold std_max. destruct (a <? b) eqn:E.
  - now apply ltb_leb.
  - now apply leb_refl.
Qed.

Lemma std_max_ge_r a b :
  isnan a = false -> isnan b = false -> (b <=? std_max a b) = true.
Proof.
  intros Ha Hb. unfold std_max. destruct (a <? b) eqn:E.
  - now apply leb_refl.
  - now apply not_ltb_leb.
Qed.

End Order.

Import Order.

(** ** isNull *)

(** X1: what [isNull] decides: the NaN test reads xMaximum twice and
    never yMaximum. *)
Lemma isNull_iff b :
  isNull b = true <->
  (xMinimum b = nan /\ xMaximum b = nan /\ yMinimum b = nan /\
   zMinimum b = nan /\ zMaximum b = nan)
  \/ sentinel_inverted b.
Proof.
  destruct b as [[x0 y0 x1 y1] z0 z1].
  unfold isNull, sentinel_inverted, xMinimum, xMaximum, yMinimum, yMaximum,
    zMinimum, zMaximum; simpl.
  rewrite orb_true_iff, !andb_true_iff. split.
  - intros [H | H].
    + left. decompose [and] H.
      repeat match goal with
             | H : isnan ?v = true |- _ => destruct v; try discriminate H; clear H
             end.
      repeat split.
    + right. decompose [and] H.
      repeat match goal with
             | H : (_ ==? _) = true |- _ => apply eqb_finite_eq in H
             end.
      repeat split; assumption.
  - intros [H | H]; decompose [and] H; subst; [left | right]; repeat split.
Qed.

(** C1 (the code departs from it): with every bound NaN except yMaximum,
    the box is neither all-NaN nor sentinel-inverted, and [isNull] still
    answers true. *)
Theorem isNull_ignores_yMaximum :
  let b := box nan nan nan nan one nan in
  isNull b = true /\ ~ all_bounds_nan b /\ ~ sentinel_inverted b.
Proof.
  simpl. split; [reflexivity|].
  split; intros H; unfold all_bounds_nan, sentinel_inverted in H;
    decompose [and] H; discriminate.
Qed.

(** ** normalize *)

Lemma rect_normalize_idempotent r :
  Rect.normalize (Rect.normalize r) = Rect.normalize r.
Proof.
  destruct r as [x0 y0 x1 y1]. unfold Rect.normalize, gtb; simpl.
  destruct (x1 <? x0) eqn:Ex; simpl;
    destruct (y1 <? y0) eqn:Ey; simpl;
    rewrite ?Ex, ?Ey, ?(ltb_asym _ _ Ex), ?(ltb_asym _ _ Ey); simpl;
    rewrite ?Ex, ?Ey, ?(ltb_asym _ _ Ex), ?(ltb_asym _ _ Ey); reflexivity.
Qed.

Lemma z_normalize_idempotent a b :
  let lo := std_min a b in
  let hi := std_max a b in
  std_min lo hi = lo /\ std_max lo hi = hi.
Proof.
  unfold std_min, std_max.
  destruct (b <? a) eqn:Eba; destruct (a <? b) eqn:Eab;
    rewrite ?Eba, ?Eab; auto.
  - rewrite (ltb_asym _ _ Eba) in Eab. discriminate.
  - destruct (a <? a); auto.
Qed.

Lemma normalize_idempotent b : normalize (normalize b) = normalize b.
Proof.
  destruct b as [r a c]. unfold normalize; simpl.
  rewrite rect_normalize_idempotent.
  destruct (z_normalize_idempotent a c) as [-> ->]. reflexivity.
Qed.

Lemma rect_normalize_x_ordered r :
  isnan (mXmin r) = false -> isnan (mXmax r) = false ->
  (mXmin (Rect.normalize r) <=? mXmax (Rect.normalize r)) = true.
Proof.
  destruct r as [x0 y0 x1 y1]. unfold Rect.normalize, gtb; simpl.
  intros H0 H1.
  destruct (x1 <? x0) eqn:Ex; simpl; destruct (y1 <? y0); simpl;
    auto using ltb_leb, not_ltb_leb.
Qed.

Lemma rect_normalize_y_ordered r :
  isnan (mYmin r) = false -> isnan (mYmax r) = false ->
  (mYmin (Rect.normalize r) <=? mYmax (Rect.normalize r)) = true.
Proof.
  destruct r as [x0 y0 x1 y1]. unfold Rect.normalize, gtb; simpl.
  intros H0 H1.
  destruct (x1 <? x0); simpl; destruct (y1 <? y0) eqn:Ey; simpl;
    auto using ltb_leb, not_ltb_leb.
Qed.

Lemma z_normalize_ordered a b :
  (std_min a b <=? std_max a b) = negb (isnan a).
Proof.
  unfold std_min, std_max.
  destruct (isnan a) eqn:Ha; simpl.
  - destruct a; try discriminate. destruct b as [[]|[]| |[]]; reflexivity.
  - destruct (isnan b) eqn:Hb.
    + destruct b; try discriminate.
      replace (S754_nan <? a) with false by (destruct a as [[]|[]| |[]]; reflexivity).
      replace (a <? S754_nan) with false by (destruct a as [[]|[]| |[]]; reflexivity).
      now apply leb_refl.
    + destruct (b <? a) eqn:Eba; destruct (a <? b) eqn:Eab;
        auto using ltb_leb, leb_refl, not_ltb_leb.
Qed.

(** C4 (counterexample): normalize leaves the all-NaN box as it is, and
    NaN <= NaN is false. *)
Lemma normalize_claim_fails_on_nan :
  normalize null_box = null_box /\
  (zMinimum (normalize null_box) <=? zMaximum (normalize null_box)) = false /\
  ~ normalize_claim null_box.
Proof.
  split; [reflexivity|]. split; [reflexivity|].
  unfold normalize_claim, ordered. intros [_ [_ [_ H]]].
  vm_compute in H. discriminate.
Qed.

(** C4 (amended): normalize is idempotent on every box; after it,
    min <= max holds on x and on y when neither bound of the axis is NaN,
    and on z exactly when zmin was not NaN. *)
Theorem normalize_idempotent_ordered b :
  normalize (normalize b) = normalize b /\
  (isnan (xMinimum b) = false -> isnan (xMaximum b) = false ->
   (xMinimum (normalize b) <=? xMaximum (normalize b)) = true) /\
  (isnan (yMinimum b) = false -> isnan (yMaximum b) = false ->
   (yMinimum (normalize b) <=? yMaximum (normalize b)) = true) /\
  (zMinimum (normalize b) <=? zMaximum (normalize b))
    = negb (isnan (zMinimum b)).
Proof.
  split; [apply normalize_idempotent|].
  destruct b as [r a c].
  unfold xMinimum, xMaximum, yMinimum, yMaximum, zMinimum, zMaximum,
    Rect.xMinimum, Rect.xMaximum, Rect.yMinimum, Rect.yMaximum; simpl.
  split; [apply rect_normalize_x_ordered|].
  split; [apply rect_normalize_y_ordered|].
  apply z_normalize_ordered.
Qed.

(** An inverted box of finite bounds: normalize orders it. *)
Lemma normalize_idempotent_ordered_witness :
  let b := box (of_Z 10) (of_Z 10) (of_Z 10) zero zero zero in
  normalize b = box zero zero zero (of_Z 10) (of_Z 10) (of_Z 10) /\
  normalize (normalize b) = normalize b /\
  (xMinimum (normalize b) <=? xMaximum (normalize b)) = true /\
  (yMinimum (normalize b) <=? yMaximum (normalize b)) = true.
Proof.
  intros b.
  destruct (normalize_idempotent_ordered b) as [Hi [Hx [Hy _]]].
  split; [reflexivity|]. split; [exact Hi|].
  split; [apply Hx; reflexivity | apply Hy; reflexivity].
Defined.

(** A box is not null when its zmin is a number other than +DBL_MAX,
    whatever its rectangle. *)
Lemma isNull_needs_z r z0 z1 :
  isnan z0 = false -> (z0 ==? DBL_MAX) = false -> isNull (mkBox r z0 z1) = false.
Proof.
  intros H1 H2. unfold isNull. cbn [mZmin mZmax mBounds2d].
  rewrite H1, H2, !andb_false_r. reflexivity.
Qed.

(** C9: the box that setMinimal leaves is null; normalize swaps each of
    its pairs of sentinels, so that every minimum is -DBL_MAX and every
    maximum +DBL_MAX, and the box is not null any more, which zmin alone
    decides, whatever becomes of the rectangle. *)
Theorem normalize_setMinimal_not_null b0 :
  let b := setMinimal b0 in
  isNull b = true /\
  normalize b = box (- DBL_MAX) (- DBL_MAX) (- DBL_MAX) DBL_MAX DBL_MAX DBL_MAX /\
  isNull (normalize b) = false /\
  (forall r, isNull (mkBox r (zMinimum (normalize b)) (zMaximum (normalize b)))
             = false).
Proof.
  destruct b0 as [r a c]. repeat split.
  intros r'. apply isNull_needs_z; reflexivity.
Qed.

(** ** Accumulating points from the minimal box *)

Module Digits.

Local Open Scope Z_scope.

Lemma digits2_pos_bounds m :
  2 ^ (Zpos (digits2_pos m) - 1) <= Zpos m < 2 ^ Zpos (digits2_pos m).
Proof.
  induction m as [p IH | p IH |]; simpl digits2_pos.
  - rewrite Pos2Z.inj_succ.
    replace (Z.succ (Zpos (digits2_pos p)) - 1)
      with (Z.succ (Zpos (digits2_pos p) - 1)) by lia.
    rewrite !Z.pow_succ_r by lia. lia.
  - rewrite Pos2Z.inj_succ.
    replace (Z.succ (Zpos (digits2_pos p)) - 1)
      with (Z.succ (Zpos (digits2_pos p) - 1)) by lia.
    rewrite !Z.pow_succ_r by lia. lia.
  - simpl. lia.
Qed.

(** What validity says of a finite double. *)
Lemma bounded_inv m e :
  bounded prec emax m e = true ->
  Zpos (digits2_pos m) <= 53 /\ -1074 <= e <= 971 /\
  (e = -1074 \/ Zpos (digits2_pos m) = 53).
Proof.
  unfold bounded, canonical_mantissa, fexp, SpecFloat.emin, prec, emax.
  rewrite andb_true_iff, Z.eqb_eq, Z.leb_le. lia.
Qed.

Lemma bounded_mantissa m e :
  bounded prec emax m e = true -> Zpos m < 2 ^ 53.
Proof.
  intros H. apply bounded_inv in H. destruct H as [Hd _].
  pose proof (digits2_pos_bounds m) as [_ Hm].
  eapply Z.lt_le_trans; [exact Hm|].
  apply Z.pow_le_mono_r; lia.
Qed.

End Digits.

Lemma finite_double_inv v :
  finite_double v = true -> valid v = true /\ is_finite v = true /\ isnan v = false.
Proof.
  unfold finite_double. rewrite andb_true_iff. intros [Hv Hf].
  repeat split; auto. destruct v; auto; discriminate.
Qed.

Lemma compare_finite s m e s' m' e' :
  SFcompare (S754_finite s m e) (S754_finite s' m' e')
  = Some match s, s' with
         | true, false => Lt
         | false, true => Gt
         | false, false =>
             match Z.compare e e' with
             | Lt => Lt | Gt => Gt | Eq => Pos.compare m m' end
         | true, true =>
             match Z.compare e e' with
             | Lt => Gt | Gt => Lt | Eq => CompOpp (Pos.compare m m') end
         end.
Proof. reflexivity. Qed.

Lemma finite_le_DBL_MAX v : finite_double v = true -> (v <=? DBL_MAX) = true.
Proof.
  intros H. apply finite_double_inv in H. destruct H as [Hv [Hf _]].
  destruct v as [s|s| |s m e]; try discriminate; [reflexivity|].
  unfold valid in Hv; cbn [valid_binary] in Hv.
  pose proof (Digits.bounded_mantissa _ _ Hv) as Hm.
  apply Digits.bounded_inv in Hv. destruct Hv as [_ [He _]].
  unfold leb, SFleb, DBL_MAX. rewrite compare_finite.
  destruct s; [reflexivity|].
  destruct (Z.compare_spec e 971); try reflexivity; [|lia].
  destruct (Pos.compare_spec m 9007199254740991); try reflexivity.
  change (2 ^ 53)%Z with 9007199254740992%Z in Hm. lia.
Qed.

Lemma finite_ge_neg_DBL_MAX v :
  finite_double v = true -> (- DBL_MAX <=? v) = true.
Proof.
  intros H. apply finite_double_inv in H. destruct H as [Hv [Hf _]].
  destruct v as [s|s| |s m e]; try discriminate; [reflexivity|].
  unfold valid in Hv; cbn [valid_binary] in Hv.
  pose proof (Digits.bounded_mantissa _ _ Hv) as Hm.
  apply Digits.bounded_inv in Hv. destruct Hv as [_ [He _]].
  unfold leb, SFleb, DBL_MAX, opp, SFopp, negb. rewrite compare_finite.
  destruct s; [|reflexivity].
  destruct (Z.compare_spec 971 e); try reflexivity; [|lia].
  destruct (Pos.compare_spec 9007199254740991 m); try reflexivity.
  change (2 ^ 53)%Z with 9007199254740992%Z in Hm. lia.
Qed.

Section Folds.

Lemma fold_min_spec vs : forall m0,
  not_nan m0 -> Forall not_nan vs ->
  let r := fold_left std_min vs m0 in
  (r = m0 \/ In r vs) /\ (r <=? m0) = true /\
  (forall v, In v vs -> (r <=? v) = true).
Proof.
  induction vs as [|v vs IH]; intros m0 H0 Hvs; simpl.
  - split; [now left|]. split; [now apply leb_refl|]. intros v [].
  - inversion Hvs as [|? ? Hv Hvs']; subst.
    assert (Hm : not_nan (std_min m0 v)) by now apply std_min_not_nan.
    destruct (IH (std_min m0 v) Hm Hvs') as [Hin [Hle Hall]].
    pose proof (std_min_le_l m0 v H0 Hv) as Hl.
    pose proof (std_min_le_r m0 v H0 Hv) as Hr.
    split; [|split].
    + destruct Hin as [-> | Hin]; [|now right; right].
      destruct (std_min_cases m0 v) as [-> | ->]; [now left | now right; left].
    + eapply leb_trans; eassumption.
    + intros w [<- | Hw]; [eapply leb_trans; eassumption | now apply Hall].
Qed.

Lemma fold_max_spec vs : forall m0,
  not_nan m0 -> Forall not_nan vs ->
  let r := fold_left std_max vs m0 in
  (r = m0 \/ In r vs) /\ (m0 <=? r) = true /\
  (forall v, In v vs -> (v <=? r) = true).
Proof.
  induction vs as [|v vs IH]; intros m0 H0 Hvs; simpl.
  - split; [now left|]. split; [now apply leb_refl|]. intros v [].
  - inversion Hvs as [|? ? Hv Hvs']; subst.
    assert (Hm : not_nan (std_max m0 v)) by now apply std_max_not_nan.
    destruct (IH (std_max m0 v) Hm Hvs') as [Hin [Hle Hall]].
    pose proof (std_max_ge_l m0 v H0 Hv) as Hl.
    pose proof (std_max_ge_r m0 v H0 Hv) as Hr.
    split; [|split].
    + destruct Hin as [-> | Hin]; [|now right; right].
      destruct (std_max_cases m0 v) as [-> | ->]; [now left | now right; left].
    + eapply leb_trans; eassumption.
    + intros w [<- | Hw]; [eapply leb_trans; eassumption | now apply Hall].
Qed.

Lemma finite_not_nan vs :
  Forall (fun v => finite_double v = true) vs -> Forall not_nan vs.
Proof.
  apply Forall_impl. intros v Hv. now apply finite_double_inv in Hv.
Qed.

(** Folding [std::min] from +DBL_MAX over finite values gives their
    minimum. *)
Lemma fold_min_from_DBL_MAX vs :
  vs <> [] -> Forall (fun v => finite_double v = true) vs ->
  is_minimum (fold_left std_min vs DBL_MAX) vs.
Proof.
  intros Hne Hfin.
  destruct (fold_min_spec vs DBL_MAX eq_refl (finite_not_nan vs Hfin))
    as [Hin [_ Hall]].
  split; [|exact Hall].
  destruct Hin as [Heq | Hin]; [|exact Hin].
  destruct vs as [|v vs]; [congruence|].
  assert (Hv : In v (v :: vs)) by now left.
  pose proof (Hall v Hv) as Hle. rewrite Heq in Hle.
  rewrite Forall_forall in Hfin.
  pose proof (finite_le_DBL_MAX _ (Hfin v Hv)) as Hge.
  pose proof (leb_antisym _ _ Hge Hle) as He.
  apply eqb_finite_eq in He. left. rewrite Heq. exact He.
Qed.

Lemma fold_max_from_neg_DBL_MAX vs :
  vs <> [] -> Forall (fun v => finite_double v = true) vs ->
  is_maximum (fold_left std_max vs (- DBL_MAX)) vs.
Proof.
  intros Hne Hfin.
  destruct (fold_max_spec vs (- DBL_MAX) eq_refl (finite_not_nan vs Hfin))
    as [Hin [_ Hall]].
  split; [|exact Hall].
  destruct Hin as [Heq | Hin]; [|exact Hin].
  destruct vs as [|v vs]; [congruence|].
  assert (Hv : In v (v :: vs)) by now left.
  pose proof (Hall v Hv) as Hle. rewrite Heq in Hle.
  rewrite Forall_forall in Hfin.
  pose proof (finite_ge_neg_DBL_MAX _ (Hfin v Hv)) as Hge.
  pose proof (leb_antisym _ _ Hle Hge) as He.
  apply eqb_finite_eq in He. left. rewrite Heq. exact He.
Qed.

Lemma minimum_unique m m' vs vs' :
  Permutation vs vs' -> is_minimum m vs -> is_minimum m' vs' ->
  (m ==? m') = true.
Proof.
  intros HP [Hin Hall] [Hin' Hall'].
  apply leb_antisym.
  - apply Hall. eapply Permutation_in; [apply Permutation_sym|]; eassumption.
  - apply Hall'. eapply Permutation_in; eassumption.
Qed.

Lemma maximum_unique m m' vs vs' :
  Permutation vs vs' -> is_maximum m vs -> is_maximum m' vs' ->
  (m ==? m') = true.
Proof.
  intros HP [Hin Hall] [Hin' Hall'].
  apply leb_antisym.
  - apply Hall'. eapply Permutation_in; eassumption.
  - apply Hall. eapply Permutation_in; [apply Permutation_sym|]; eassumption.
Qed.

End Folds.

Lemma combineAll_bounds pts : forall b,
  xMinimum (combineAll pts b) = fold_left std_min (map px pts) (xMinimum b) /\
  yMinimum (combineAll pts b) = fold_left std_min (map py pts) (yMinimum b) /\
  zMinimum (combineAll pts b) = fold_left std_min (map pz pts) (zMinimum b) /\
  xMaximum (combineAll pts b) = fold_left std_max (map px pts) (xMaximum b) /\
  yMaximum (combineAll pts b) = fold_left std_max (map py pts) (yMaximum b) /\
  zMaximum (combineAll pts b) = fold_left std_max (map pz pts) (zMaximum b).
Proof.
  induction pts as [|p pts IH]; intros b.
  - repeat split.
  - unfold combineAll in *. cbn [fold_left map].
    specialize (IH (combineWith (px p) (py p) (pz p) b)).
    exact IH.
Qed.

Lemma finite_coordinates pts :
  Forall finite_point pts ->
  Forall (fun v => finite_double v = true) (map px pts) /\
  Forall (fun v => finite_double v = true) (map py pts) /\
  Forall (fun v => finite_double v = true) (map pz pts).
Proof.
  induction 1 as [|p pts [Hx [Hy Hz]] _ [IHx [IHy IHz]]]; simpl;
    repeat split; constructor; assumption.
Qed.

Lemma map_not_nil {A B} (f : A -> B) l : l <> [] -> map f l <> [].
Proof. destruct l; [congruence | discriminate]. Qed.

(** The six bounds after accumulating a non-empty sequence of finite
    points from the minimal box. *)
Lemma combineAll_extrema b0 pts :
  pts <> [] -> Forall finite_point pts ->
  let B := combineAll pts (setMinimal b0) in
  is_minimum (xMinimum B) (map px pts) /\
  is_minimum (yMinimum B) (map py pts) /\
  is_minimum (zMinimum B) (map pz pts) /\
  is_maximum (xMaximum B) (map px pts) /\
  is_maximum (yMaximum B) (map py pts) /\
  is_maximum (zMaximum B) (map pz pts).
Proof.
  intros Hne Hfin B.
  destruct (combineAll_bounds pts (setMinimal b0))
    as [Ex0 [Ey0 [Ez0 [Ex1 [Ey1 Ez1]]]]].
  destruct (finite_coordinates pts Hfin) as [Fx [Fy Fz]].
  subst B. rewrite Ex0, Ey0, Ez0, Ex1, Ey1, Ez1.
  repeat split;
    first [ apply fold_min_from_DBL_MAX | apply fold_max_from_neg_DBL_MAX ];
    auto using map_not_nil.
Qed.

(** C2: from the box left by setMinimal, one combineWith per point of a
    non-empty sequence of finite points leaves, on each axis, the least
    and the greatest coordinate of the sequence as bounds; combining the
    same points in another order gives bounds that are equal to these. *)
Theorem combineWith_bounding_box b0 pts pts' :
  pts <> [] -> Forall finite_point pts -> Permutation pts pts' ->
  let B := combineAll pts (setMinimal b0) in
  let B' := combineAll pts' (setMinimal b0) in
  (is_minimum (xMinimum B) (map px pts) /\
   is_minimum (yMinimum B) (map py pts) /\
   is_minimum (zMinimum B) (map pz pts) /\
   is_maximum (xMaximum B) (map px pts) /\
   is_maximum (yMaximum B) (map py pts) /\
   is_maximum (zMaximum B) (map pz pts))
  /\ same_bounds B B'.
Proof.
  intros Hne Hfin HP B B'.
  assert (Hne' : pts' <> []).
  { intros ->. apply Permutation_sym, Permutation_nil in HP. congruence. }
  assert (Hfin' : Forall finite_point pts').
  { eapply Permutation_Forall; eassumption. }
  pose proof (combineAll_extrema b0 pts Hne Hfin) as H.
  pose proof (combineAll_extrema b0 pts' Hne' Hfin') as H'.
  split; [exact H|].
  cbv zeta in H, H'. fold B in H. fold B' in H'.
  destruct H as [Hx0 [Hy0 [Hz0 [Hx1 [Hy1 Hz1]]]]].
  destruct H' as [Hx0' [Hy0' [Hz0' [Hx1' [Hy1' Hz1']]]]].
  repeat split.
  - exact (minimum_unique _ _ _ _ (Permutation_map px HP) Hx0 Hx0').
  - exact (minimum_unique _ _ _ _ (Permutation_map py HP) Hy0 Hy0').
  - exact (minimum_unique _ _ _ _ (Permutation_map pz HP) Hz0 Hz0').
  - exact (maximum_unique _ _ _ _ (Permutation_map px HP) Hx1 Hx1').
  - exact (maximum_unique _ _ _ _ (Permutation_map py HP) Hy1 Hy1').
  - exact (maximum_unique _ _ _ _ (Permutation_map pz HP) Hz1 Hz1').
Qed.

(** Two points, combined in both orders. *)
Lemma combineWith_bounding_box_witness :
  let pts := [ (of_Z 1, of_Z 2, of_Z 3); (zero, of_Z 5, of_Z (-1)) ] in
  let pts' := [ (zero, of_Z 5, of_Z (-1)); (of_Z 1, of_Z 2, of_Z 3) ] in
  let B := combineAll pts (setMinimal (box nan nan nan nan nan nan)) in
  let B' := combineAll pts' (setMinimal (box nan nan nan nan nan nan)) in
  B = box zero (of_Z 2) (of_Z (-1)) (of_Z 1) (of_Z 5) (of_Z 3) /\
  is_minimum (zMinimum B) (map pz pts) /\ same_bounds B B'.
Proof.
  intros pts pts' B B'.
  assert (Hfin : Forall finite_point pts)
    by (repeat constructor; reflexivity).
  assert (Hne : pts <> []) by discriminate.
  destruct (combineWith_bounding_box (box nan nan nan nan nan nan)
              pts pts' Hne Hfin (perm_swap _ _ []))
    as [[_ [_ [Hz _]]] Hs].
  split; [reflexivity|]. split; [exact Hz | exact Hs].
Defined.

(** ** intersect and intersects *)

Lemma std_max_comm a b :
  isnan a = false -> isnan b = false -> (std_max a b ==? std_max b a) = true.
Proof.
  intros Ha Hb. unfold std_max.
  destruct (a <? b) eqn:Eab; destruct (b <? a) eqn:Eba;
    auto using eqb_refl.
  - rewrite (ltb_asym _ _ Eab) in Eba. discriminate.
  - apply leb_antisym; now apply not_ltb_leb.
Qed.

Lemma std_min_comm a b :
  isnan a = false -> isnan b = false -> (std_min a b ==? std_min b a) = true.
Proof.
  intros Ha Hb. unfold std_min.
  destruct (a <? b) eqn:Eab; destruct (b <? a) eqn:Eba;
    auto using eqb_refl.
  - rewrite (ltb_asym _ _ Eab) in Eba. discriminate.
  - apply leb_antisym; now apply not_ltb_leb.
Qed.

Lemma std_min_compat a a' b b' :
  (a ==? a') = true -> (b ==? b') = true ->
  (std_min a b ==? std_min a' b') = true.
Proof.
  intros Ha Hb. unfold std_min.
  rewrite (ltb_eqb_compat _ _ _ _ Hb Ha). destruct (b' <? a'); assumption.
Qed.

Lemma std_max_compat a a' b b' :
  (a ==? a') = true -> (b ==? b') = true ->
  (std_max a b ==? std_max a' b') = true.
Proof.
  intros Ha Hb. unfold std_max.
  rewrite (ltb_eqb_compat _ _ _ _ Ha Hb). destruct (a' <? b'); assumption.
Qed.

(** Two intervals overlap or not, whichever comes first. *)
Lemma overlap_comm lo lo' hi hi' :
  isnan lo = false -> isnan lo' = false ->
  isnan hi = false -> isnan hi' = false ->
  (std_max lo lo' <=? std_min hi hi') = (std_max lo' lo <=? std_min hi' hi).
Proof.
  intros. apply leb_eqb_compat; auto using std_max_comm, std_min_comm.
Qed.

Lemma rect_intersects_comm r o :
  isnan (mXmin r) = false -> isnan (mYmin r) = false ->
  isnan (mXmax r) = false -> isnan (mYmax r) = false ->
  isnan (mXmin o) = false -> isnan (mYmin o) = false ->
  isnan (mXmax o) = false -> isnan (mYmax o) = false ->
  Rect.intersects r o = Rect.intersects o r.
Proof.
  intros. unfold Rect.intersects.
  f_equal; apply overlap_comm; assumption.
Qed.

Lemma is2d_false near b :
  is2d near b = false -> isnan (mZmin b) = false /\ isnan (mZmax b) = false.
Proof.
  unfold is2d. rewrite !orb_false_iff. tauto.
Qed.

Lemma intersects_comm near A B :
  isnan (xMinimum A) = false -> isnan (yMinimum A) = false ->
  isnan (xMaximum A) = false -> isnan (yMaximum A) = false ->
  isnan (xMinimum B) = false -> isnan (yMinimum B) = false ->
  isnan (xMaximum B) = false -> isnan (yMaximum B) = false ->
  intersects near A B = intersects near B A.
Proof.
  intros. unfold intersects.
  rewrite (rect_intersects_comm (mBounds2d A) (mBounds2d B)) by assumption.
  destruct (Rect.intersects (mBounds2d B) (mBounds2d A)); simpl; [|reflexivity].
  rewrite (orb_comm (is2d near B)).
  destruct (is2d near A) eqn:EA; [reflexivity|].
  destruct (is2d near B) eqn:EB; [reflexivity|]. simpl.
  apply is2d_false in EA, EB. destruct EA, EB.
  unfold gtb. apply (overlap_comm (mZmin B) (mZmin A) (mZmax B) (mZmax A));
    assumption.
Qed.

Lemma rect_normalize_compat r r' :
  (mXmin r ==? mXmin r') = true -> (mYmin r ==? mYmin r') = true ->
  (mXmax r ==? mXmax r') = true -> (mYmax r ==? mYmax r') = true ->
  let n := Rect.normalize r in
  let n' := Rect.normalize r' in
  (mXmin n ==? mXmin n') = true /\ (mYmin n ==? mYmin n') = true /\
  (mXmax n ==? mXmax n') = true /\ (mYmax n ==? mYmax n') = true.
Proof.
  destruct r as [x0 y0 x1 y1], r' as [x0' y0' x1' y1']; simpl.
  intros Hx0 Hy0 Hx1 Hy1. unfold Rect.normalize, gtb; simpl.
  rewrite (ltb_eqb_compat _ _ _ _ Hx1 Hx0).
  destruct (x1' <? x0'); simpl;
    rewrite (ltb_eqb_compat _ _ _ _ Hy1 Hy0);
    destruct (y1' <? y0'); simpl; auto.
Qed.

Lemma normalize_same_bounds A B :
  same_bounds A B -> same_bounds (normalize A) (normalize B).
Proof.
  destruct A as [r a c], B as [r' a' c'].
  unfold same_bounds, xMinimum, xMaximum, yMinimum, yMaximum, zMinimum,
    zMaximum, Rect.xMinimum, Rect.xMaximum, Rect.yMinimum, Rect.yMaximum;
    simpl.
  intros [Hx0 [Hy0 [Hz0 [Hx1 [Hy1 Hz1]]]]].
  destruct (rect_normalize_compat r r' Hx0 Hy0 Hx1 Hy1) as [? [? [? ?]]].
  repeat split; auto using std_min_compat, std_max_compat.
Qed.

Lemma new_QgsBox3D_same_bounds x0 y0 z0 x1 y1 z1 x0' y0' z0' x1' y1' z1' flag :
  (x0 ==? x0') = true -> (y0 ==? y0') = true -> (z0 ==? z0') = true ->
  (x1 ==? x1') = true -> (y1 ==? y1') = true -> (z1 ==? z1') = true ->
  same_bounds (new_QgsBox3D x0 y0 z0 x1 y1 z1 flag)
              (new_QgsBox3D x0' y0' z0' x1' y1' z1' flag).
Proof.
  intros. unfold new_QgsBox3D. destruct flag.
  - apply normalize_same_bounds. repeat split; assumption.
  - repeat split; assumption.
Qed.

Lemma intersect_comm flag A B :
  nan_free A -> nan_free B ->
  same_bounds (intersect flag A B) (intersect flag B A).
Proof.
  intros [? [? [? [? [? ?]]]]] [? [? [? [? [? ?]]]]].
  unfold intersect. apply new_QgsBox3D_same_bounds; simpl;
    auto using std_max_comm, std_min_comm.
Qed.

(** C6 (counterexample): with the all-NaN box as A, [std::max] and
    [std::min] keep the NaN of their first argument and drop the NaN of
    their second: A.intersect(B) is all NaN and B.intersect(A) is B,
    whatever the constructor's default for normalize; and A does not
    intersect B while B intersects A. *)
Lemma intersect_not_symmetric_on_nan :
  let A := null_box in
  let B := box zero zero zero one one one in
  let near := qgsDoubleNear four_epsilon in
  zMinimum (intersect false A B) = nan /\
  zMinimum (intersect false B A) = zero /\
  intersect true A B = A /\ intersect true B A = B /\
  intersects near A B = false /\ intersects near B A = true /\
  ~ symmetry_claim near false A B /\ ~ symmetry_claim near true A B.
Proof.
  intros A B near.
  split; [reflexivity|]. split; [reflexivity|].
  split; [reflexivity|]. split; [reflexivity|].
  split; [reflexivity|]. split; [reflexivity|].
  split; intros [_ H]; unfold same_bounds in H; decompose [and] H;
    match goal with
    | H : (zMinimum _ ==? zMinimum _) = true |- _ => vm_compute in H
    end; discriminate.
Qed.

(** C6 (amended): intersects is symmetric for boxes whose x and y bounds
    are not NaN, and A.intersect(B) and B.intersect(A) have equal bounds
    for boxes none of whose bounds is NaN; this for any tolerance helper
    and either default of the constructor's normalize argument. *)
Theorem intersect_symmetric near flag A B :
  (xy_nan_free A -> xy_nan_free B ->
   intersects near A B = intersects near B A) /\
  (nan_free A -> nan_free B ->
   same_bounds (intersect flag A B) (intersect flag B A)).
Proof.
  split; [|apply intersect_comm].
  intros [? [? [? ?]]] [? [? [? ?]]]. now apply intersects_comm.
Qed.

(** Two overlapping cubes. *)
Lemma intersect_symmetric_witness :
  let A := box zero zero zero (of_Z 10) (of_Z 10) (of_Z 10) in
  let B := box (of_Z 5) (of_Z 5) (of_Z 5) (of_Z 15) (of_Z 15) (of_Z 15) in
  let near := qgsDoubleNear four_epsilon in
  intersect true A B = box (of_Z 5) (of_Z 5) (of_Z 5) (of_Z 10) (of_Z 10) (of_Z 10) /\
  intersects near A B = true /\
  symmetry_claim near true A B.
Proof.
  intros A B near.
  destruct (intersect_symmetric near true A B) as [Hs Hb].
  split; [reflexivity|]. split; [reflexivity|].
  split.
  - apply Hs; repeat split.
  - apply Hb; repeat split.
Defined.

(** ** intersect leaves its operands alone *)

Lemma load_allocate_old v h p :
  p < List.length h -> load (h ++ [v]) p = load h p.
Proof. intros H. unfold load. now rewrite nth_error_app1. Qed.

Lemma load_allocate_new v h : load (h ++ [v]) (List.length h) = Some v.
Proof.
  unfold load. rewrite nth_error_app2 by lia. now rewrite Nat.sub_diag.
Qed.

Lemma load_some_lt h p v : load h p = Some v -> p < List.length h.
Proof. intros H. apply nth_error_Some. unfold load in H. congruence. Qed.

Lemma load_fresh h : load h (List.length h) = None.
Proof. apply nth_error_None. lia. Qed.

Lemma load_store_same h : forall p v,
  p < List.length h -> load (store h p v) p = Some v.
Proof.
  induction h as [|x t IH]; intros [|p] v H; simpl in *; try lia; auto.
  apply IH. lia.
Qed.

Lemma load_store_other h : forall p q v,
  p <> q -> load (store h p v) q = load h q.
Proof.
  induction h as [|x t IH]; intros [|p] [|q] v H; simpl;
    try reflexivity; try congruence.
  apply IH. congruence.
Qed.

Lemma length_store h : forall p v, List.length (store h p v) = List.length h.
Proof.
  induction h as [|x t IH]; intros [|p] v; simpl; auto.
Qed.

Lemma construct_spec x0 y0 z0 x1 y1 z1 flag h :
  let r := fst (construct x0 y0 z0 x1 y1 z1 flag h) in
  let h' := snd (construct x0 y0 z0 x1 y1 z1 flag h) in
  r = List.length h /\
  load h' r = Some (new_QgsBox3D x0 y0 z0 x1 y1 z1 flag) /\
  forall p, p <> r -> load h' p = load h p.
Proof.
  unfold construct, allocate, new_QgsBox3D. cbn [fst snd].
  split; [reflexivity|]. destruct flag.
  - unfold call. rewrite load_allocate_new. split.
    + apply load_store_same. rewrite List.length_app. simpl. lia.
    + intros p Hp. rewrite load_store_other by congruence.
      destruct (Nat.lt_ge_cases p (List.length h)) as [Hlt | Hge].
      * now apply load_allocate_old.
      * unfold load. transitivity (@None QgsBox3D).
        -- apply nth_error_None. rewrite List.length_app. simpl. lia.
        -- symmetry. apply nth_error_None. lia.
  - split; [apply load_allocate_new|].
    intros p Hp.
    destruct (Nat.lt_ge_cases p (List.length h)) as [Hlt | Hge].
    + now apply load_allocate_old.
    + unfold load. transitivity (@None QgsBox3D).
      * apply nth_error_None. rewrite List.length_app. simpl. lia.
      * symmetry. apply nth_error_None. lia.
Qed.

(** C10: a call A.intersect(B) succeeds on any two live boxes, returns a
    box in a cell that was free before the call, holding the value of
    [intersect], and leaves A, B and every other box as they were. *)
Theorem intersect_call_frame flag h this other A B :
  load h this = Some A -> load h other = Some B ->
  exists r h',
    intersect_call flag this other h = Some (r, h') /\
    load h r = None /\
    load h' r = Some (intersect flag A B) /\
    load h' this = Some A /\ load h' other = Some B /\
    (forall p, p <> r -> load h' p = load h p).
Proof.
  intros HA HB. unfold intersect_call. rewrite HA, HB.
  set (c := construct _ _ _ _ _ _ flag h).
  pose proof (construct_spec
                (Rect.xMinimum (Rect.intersect (mBounds2d A) (mBounds2d B)))
                (Rect.yMinimum (Rect.intersect (mBounds2d A) (mBounds2d B)))
                (std_max (mZmin A) (mZmin B))
                (Rect.xMaximum (Rect.intersect (mBounds2d A) (mBounds2d B)))
                (Rect.yMaximum (Rect.intersect (mBounds2d A) (mBounds2d B)))
                (std_min (mZmax A) (mZmax B)) flag h) as H.
  cbv zeta in H. fold c in H. destruct H as [Hr [Hnew Hold]].
  exists (fst c), (snd c).
  pose proof (load_some_lt _ _ _ HA) as LA.
  pose proof (load_some_lt _ _ _ HB) as LB.
  split; [now destruct c|].
  split; [rewrite Hr; apply load_fresh|].
  split; [exact Hnew|].
  split; [rewrite Hold; [exact HA | lia]|].
  split; [rewrite Hold; [exact HB | lia]|].
  exact Hold.
Qed.

(** A memory of two overlapping cubes. *)
Lemma intersect_call_frame_witness :
  let A := box zero zero zero (of_Z 10) (of_Z 10) (of_Z 10) in
  let B := box (of_Z 5) (of_Z 5) (of_Z 5) (of_Z 15) (of_Z 15) (of_Z 15) in
  exists r h',
    intersect_call true 0 1 [A; B] = Some (r, h') /\
    load h' 0 = Some A /\ load h' 1 = Some B /\
    load h' r = Some (box (of_Z 5) (of_Z 5) (of_Z 5) (of_Z 10) (of_Z 10) (of_Z 10)).
Proof.
  intros A B.
  destruct (intersect_call_frame true [A; B] 0 1 A B eq_refl eq_refl)
    as [r [h' [Hc [_ [Hr [HA [HB _]]]]]]].
  exists r, h'. repeat split; assumption.
Defined.

(** ** Equality with a tolerance *)

Lemma sub_diag x : x - x = if is_finite x then zero else nan.
Proof.
  destruct x as [[]|[]| |s m e]; try reflexivity.
  unfold sub, SFsub. rewrite Z.sub_diag. reflexivity.
Qed.

(** A value is near itself exactly when it is finite: the difference of
    an infinity with itself is NaN. *)
Lemma qgsDoubleNear_diag epsilon x :
  (zero <=? epsilon) = true -> qgsDoubleNear epsilon x x = is_finite x.
Proof.
  intros He. unfold qgsDoubleNear. rewrite sub_diag.
  destruct (is_finite x); [exact He | reflexivity].
Qed.

(** C8 (counterexample): a box with an infinite zmax has no NaN bound and
    is not equal to itself. *)
Lemma operator_eq_irreflexive_on_infinity :
  let b := box zero zero zero one one pinf in
  nan_free b /\
  operator_eq (qgsDoubleNear four_epsilon) b b = false /\
  ~ reflexivity_claim (qgsDoubleNear four_epsilon) b.
Proof.
  intros b.
  assert (Hn : nan_free b) by (repeat split).
  split; [exact Hn|]. split; [reflexivity|].
  intros [H _]. specialize (H Hn). vm_compute in H. discriminate.
Qed.

(** Whatever the tolerance helper, A == A holds when, and only when,
    the helper finds each of the six bounds near itself. *)
Lemma operator_eq_diag near b :
  operator_eq near b b = true <->
  near (xMinimum b) (xMinimum b) = true /\ near (yMinimum b) (yMinimum b) = true /\
  near (zMinimum b) (zMinimum b) = true /\ near (xMaximum b) (xMaximum b) = true /\
  near (yMaximum b) (yMaximum b) = true /\ near (zMaximum b) (zMaximum b) = true.
Proof.
  destruct b as [[x0 y0 x1 y1] z0 z1].
  unfold operator_eq, Rect.eq, xMinimum, xMaximum, yMinimum,
    yMaximum, zMinimum, zMaximum, Rect.xMinimum, Rect.xMaximum,
    Rect.yMinimum, Rect.yMaximum;
    cbn [mBounds2d mZmin mZmax mXmin mXmax mYmin mYmax].
  rewrite !andb_true_iff. tauto.
Qed.

(** C8 (amended): A == A is true exactly when the tolerance helper finds
    each of the six bounds near itself; with the epsilon comparison as
    helper, for any tolerance that is not negative, that is exactly when
    the six bounds of A are finite, so that A == A is false when zmin or
    zmax is NaN, and also when a bound is infinite. *)
Theorem operator_eq_reflexive_iff_finite epsilon b :
  (zero <=? epsilon) = true ->
  (forall x, qgsDoubleNear epsilon x x = is_finite x) /\
  (operator_eq (qgsDoubleNear epsilon) b b = true <-> finite_bounds b) /\
  (isnan (zMinimum b) = true \/ isnan (zMaximum b) = true ->
   operator_eq (qgsDoubleNear epsilon) b b = false).
Proof.
  intros He.
  split; [intros x; now apply qgsDoubleNear_diag|].
  assert (Hiff : operator_eq (qgsDoubleNear epsilon) b b = true
                 <-> finite_bounds b).
  { rewrite operator_eq_diag. unfold finite_bounds.
    now rewrite !(qgsDoubleNear_diag epsilon _ He). }
  split; [exact Hiff|].
  intros Hn. apply not_true_is_false. intros E.
  apply Hiff in E. destruct E as [_ [_ [Fz0 [_ [_ Fz1]]]]].
  destruct Hn as [Hn | Hn];
    [destruct (zMinimum b) | destruct (zMaximum b)]; discriminate.
Qed.

(** A cube is equal to itself; with a NaN zmin it is not. *)
Lemma operator_eq_reflexive_iff_finite_witness :
  let b := box zero zero zero (of_Z 10) (of_Z 10) (of_Z 10) in
  operator_eq (qgsDoubleNear four_epsilon) b b = true /\
  operator_eq (qgsDoubleNear four_epsilon)
    (box zero zero nan (of_Z 10) (of_Z 10) (of_Z 10))
    (box zero zero nan (of_Z 10) (of_Z 10) (of_Z 10)) = false.
Proof.
  intros b. split.
  - apply (operator_eq_reflexive_iff_finite four_epsilon b eq_refl).
    repeat split.
  - apply (operator_eq_reflexive_iff_finite four_epsilon _ eq_refl).
    left. reflexivity.
Defined.

(** ** Subtraction and the order *)

Module Sign.

Local Open Scope Z_scope.

Lemma Pos_iter_xO m d : Zpos (Pos.iter xO m d) = Zpos m * 2 ^ Zpos d.
Proof.
  induction d as [|d IH] using Pos.peano_ind.
  - simpl. lia.
  - rewrite Pos.iter_succ, Pos2Z.inj_succ, Z.pow_succ_r by lia.
    rewrite Pos2Z.inj_xO, IH. lia.
Qed.

Lemma shl_align_fst mx ex ez :
  ez <= ex -> Zpos (fst (shl_align mx ex ez)) = Zpos mx * 2 ^ (ex - ez).
Proof.
  intros H. unfold shl_align.
  destruct (ez - ex) as [|d|d] eqn:E.
  - replace (ex - ez) with 0 by lia. simpl. lia.
  - lia.
  - replace (ex - ez) with (Zpos d) by lia. cbn [fst]. apply Pos_iter_xO.
Qed.

Lemma iter_pos_invariant {A} (P : A -> Prop) (f : A -> A) :
  (forall x, P x -> P (f x)) -> forall p x, P x -> P (iter_pos f p x).
Proof.
  intros Hf. induction p as [p IH | p IH |]; intros x Hx; simpl; auto.
Qed.

Lemma shr_1_nonneg mrs : 0 <= shr_m mrs -> 0 <= shr_m (shr_1 mrs).
Proof.
  destruct mrs as [m r s]. simpl.
  destruct m as [|[p|p|]|[p|p|]]; simpl; lia.
Qed.

Lemma shr_fexp_nonneg m e l :
  0 <= m -> 0 <= shr_m (fst (shr_fexp prec emax m e l)).
Proof.
  intros Hm. unfold shr_fexp, shr.
  assert (H0 : 0 <= shr_m (shr_record_of_loc m l))
    by (destruct l as [|[]]; exact Hm).
  destruct (fexp prec emax (Zdigits2 m + e) - e); cbn [fst]; auto.
  now apply iter_pos_invariant; [apply shr_1_nonneg|].
Qed.

Lemma round_nearest_even_nonneg m l :
  0 <= m -> 0 <= round_nearest_even m l.
Proof.
  intros Hm. destruct l as [|[]]; simpl; try lia.
  destruct (Z.even m); lia.
Qed.

Lemma binary_round_aux_signed s m e l :
  0 <= m -> signed s (binary_round_aux prec emax s m e l).
Proof.
  intros Hm. unfold binary_round_aux.
  pose proof (shr_fexp_nonneg m e l Hm) as H1.
  destruct (shr_fexp prec emax m e l) as [mrs' e']. cbn [fst] in H1.
  pose proof (shr_fexp_nonneg _ e' loc_Exact
                (round_nearest_even_nonneg _ (loc_of_shr_record mrs') H1)) as H2.
  destruct (shr_fexp prec emax _ e' loc_Exact) as [mrs'' e'']. cbn [fst] in H2.
  destruct (shr_m mrs'') as [|q|q]; [reflexivity| |lia].
  destruct (e'' <=? emax - prec); reflexivity.
Qed.

Lemma binary_round_signed s m e : signed s (binary_round prec emax s m e).
Proof.
  unfold binary_round.
  destruct (shl_align m e _) as [mz ez].
  apply binary_round_aux_signed. lia.
Qed.

(** The sign of a normalised integer mantissa. *)
Lemma binary_normalize_nonpos d e :
  d <= 0 ->
  binary_normalize prec emax d e false = S754_zero false \/
  signed true (binary_normalize prec emax d e false).
Proof.
  intros Hd. destruct d as [|q|q]; [now left | lia | right].
  apply binary_round_signed.
Qed.

(** Among binary64 numbers, the order of the exponents, then of the
    mantissas, is the order of the magnitudes. *)
Lemma aligned_le mx ex my ey :
  bounded prec emax mx ex = true -> bounded prec emax my ey = true ->
  ex < ey \/ (ex = ey /\ Zpos mx <= Zpos my) ->
  Zpos mx * 2 ^ (ex - Z.min ex ey) <= Zpos my * 2 ^ (ey - Z.min ex ey).
Proof.
  intros Hx Hy [Hlt | [-> Hle]].
  - rewrite Z.min_l by lia. rewrite Z.sub_diag, Z.pow_0_r.
    pose proof (Digits.bounded_mantissa _ _ Hx) as Hmx.
    apply Digits.bounded_inv in Hx, Hy.
    destruct Hx as [_ [Hex _]]. destruct Hy as [_ [_ [Hey | Hdy]]]; [lia|].
    pose proof (Digits.digits2_pos_bounds my) as [Hmy _].
    rewrite Hdy in Hmy.
    assert (H2 : 2 ^ 1 <= 2 ^ (ey - ex)) by (apply Z.pow_le_mono_r; lia).
    change (2 ^ 53) with 9007199254740992 in Hmx.
    change (2 ^ (53 - 1)) with 4503599627370496 in Hmy.
    change (2 ^ 1) with 2 in H2.
    nia.
  - rewrite Z.min_id, Z.sub_diag, Z.pow_0_r. lia.
Qed.

End Sign.

Lemma signed_true_not_positive r :
  signed true r -> isnan r = false /\ (zero <? r) = false.
Proof.
  destruct r as [s|s| |s m e]; simpl; intros H; try contradiction;
    subst; split; reflexivity.
Qed.

Lemma sub_finite_nonpos sx mx ex sy my ey :
  bounded prec emax mx ex = true -> bounded prec emax my ey = true ->
  (S754_finite sx mx ex <=? S754_finite sy my ey) = true ->
  let d := S754_finite sx mx ex - S754_finite sy my ey in
  isnan d = false /\ (zero <? d) = false.
Proof.
  intros Hx Hy Hle.
  unfold leb, SFleb in Hle. rewrite compare_finite in Hle.
  unfold sub, SFsub.
  rewrite !Sign.shl_align_fst by lia.
  assert (Hd : (cond_Zopp sx (Zpos mx * 2 ^ (ex - Z.min ex ey))
                - cond_Zopp sy (Zpos my * 2 ^ (ey - Z.min ex ey)) <= 0)%Z).
  { destruct sx, sy; cbn [cond_Zopp]; try discriminate.
    - destruct (Z.compare_spec ex ey) as [E | E | E]; simpl in Hle;
        try discriminate.
      + subst ey. destruct (Pos.compare_spec mx my) as [E | E | E];
          simpl in Hle; try discriminate.
        * subst. lia.
        * assert (Hm : (Zpos my <= Zpos mx)%Z) by lia.
          pose proof (Sign.aligned_le my ex mx ex Hy Hx
                        (or_intror (conj eq_refl Hm))) as H.
          lia.
      + pose proof (Sign.aligned_le my ey mx ex Hy Hx (or_introl E)) as H.
        rewrite (Z.min_comm ex ey). lia.
    - assert (0 < Zpos mx * 2 ^ (ex - Z.min ex ey))%Z by
        (apply Z.mul_pos_pos; [lia | apply Z.pow_pos_nonneg; lia]).
      assert (0 < Zpos my * 2 ^ (ey - Z.min ex ey))%Z by
        (apply Z.mul_pos_pos; [lia | apply Z.pow_pos_nonneg; lia]).
      lia.
    - destruct (Z.compare_spec ex ey) as [E | E | E]; simpl in Hle;
        try discriminate.
      + subst ey. destruct (Pos.compare_spec mx my) as [E | E | E];
          simpl in Hle; try discriminate.
        * subst. lia.
        * assert (Hm : (Zpos mx <= Zpos my)%Z) by lia.
          pose proof (Sign.aligned_le mx ex my ex Hx Hy
                        (or_intror (conj eq_refl Hm))) as H.
          lia.
      + pose proof (Sign.aligned_le mx ex my ey Hx Hy (or_introl E)) as H.
        lia. }
  destruct (Sign.binary_normalize_nonpos _ (Z.min ex ey) Hd) as [-> | Hs].
  - split; reflexivity.
  - now apply signed_true_not_positive.
Qed.

(** A difference x - y with x <= y is never positive, and is a number as
    soon as one of the two is finite. *)
Lemma sub_nonpos x y :
  valid x = true -> valid y = true ->
  is_finite x = true \/ is_finite y = true ->
  (x <=? y) = true ->
  isnan (x - y) = false /\ (zero <? x - y) = false.
Proof.
  intros Hx Hy Hf Hle.
  destruct x as [sx|sx| |sx mx ex], y as [sy|sy| |sy my ey];
    try discriminate Hle;
    try (destruct Hf as [Hf | Hf]; discriminate Hf).
  - destruct sx, sy; split; reflexivity.
  - destruct sy; [discriminate Hle | split; reflexivity].
  - destruct sy; [discriminate Hle | split; reflexivity].
  - destruct sx; [split; reflexivity | discriminate Hle].
  - destruct sx; [split; reflexivity | discriminate Hle].
  - destruct sx; [split; reflexivity | discriminate Hle].
  - destruct sy; [discriminate Hle | split; reflexivity].
  - now apply sub_finite_nonpos.
Qed.

Lemma not_nan_between_zero a :
  isnan a = false -> (a <? zero) = false -> (zero <? a) = false ->
  a = S754_zero false \/ a = S754_zero true.
Proof.
  destruct a as [[]|[]| |[] m e]; simpl; intros; try discriminate; auto.
Qed.

(** The gap of an axis on which the coordinate lies within the bounds is a
    zero. *)
Lemma gap_inside lo hi c :
  valid lo = true -> valid hi = true -> finite_double c = true ->
  (lo <=? c) = true -> (c <=? hi) = true ->
  let g := std_max (lo - c) (std_max zero (c - hi)) in
  g = S754_zero false \/ g = S754_zero true.
Proof.
  intros Hlo Hhi Hc H1 H2.
  apply finite_double_inv in Hc. destruct Hc as [Hvc [Hfc _]].
  destruct (sub_nonpos c hi Hvc Hhi (or_introl Hfc) H2) as [_ Hb].
  destruct (sub_nonpos lo c Hlo Hvc (or_intror Hfc) H1) as [Ha1 Ha2].
  cbv zeta. unfold std_max. rewrite Hb.
  destruct (lo - c <? zero) eqn:E; [now left|].
  now apply not_nan_between_zero.
Qed.

Lemma zero_eqb g :
  g = S754_zero false \/ g = S754_zero true -> (g ==? zero) = true.
Proof. intros [-> | ->]; reflexivity. Qed.

Lemma distanceTo_inside near hypot hypot3 b p :
  ignores_sign_of_zero hypot hypot3 -> zero_at_origin hypot hypot3 ->
  valid_box b -> finite_vector p -> inside b p ->
  distanceTo near hypot hypot3 b p = zero.
Proof.
  intros [S2 S3] [Z2 Z3] [Vx0 [Vy0 [Vz0 [Vx1 [Vy1 Vz1]]]]] [Fx [Fy Fz]]
         [Ix0 [Ix1 [Iy0 [Iy1 [Iz0 Iz1]]]]].
  unfold distanceTo.
  pose proof (zero_eqb _ (gap_inside _ _ _ Vx0 Vx1 Fx Ix0 Ix1)) as Gx.
  pose proof (zero_eqb _ (gap_inside _ _ _ Vy0 Vy1 Fy Iy0 Iy1)) as Gy.
  pose proof (zero_eqb _ (gap_inside _ _ _ Vz0 Vz1 Fz Iz0 Iz1)) as Gz.
  destruct (is2d near b || isnan (vz p)).
  - etransitivity; [apply S2; [exact Gx | exact Gy] | exact Z2].
  - etransitivity; [apply S3; [exact Gx | exact Gy | exact Gz] | exact Z3].
Qed.

(** The gap as the code nests it and as the specification nests it. *)
Lemma gap_nesting a b :
  isnan a = false ->
  (std_max a (std_max zero b) ==? std_max zero (std_max a b)) = true.
Proof.
  intros Ha. destruct (isnan b) eqn:Hb.
  - destruct b; try discriminate.
    replace (std_max zero S754_nan) with zero by reflexivity.
    replace (std_max a S754_nan) with a
      by (unfold std_max; destruct a as [[]|[]| |[]]; reflexivity).
    now apply std_max_comm.
  - assert (Hz : isnan zero = false) by reflexivity.
    assert (HI : isnan (std_max zero b) = false) by now apply std_max_not_nan.
    assert (HJ : isnan (std_max a b) = false) by now apply std_max_not_nan.
    pose proof (std_max_ge_l a (std_max zero b) Ha HI).
    pose proof (std_max_ge_r a (std_max zero b) Ha HI).
    pose proof (std_max_ge_l zero (std_max a b) Hz HJ).
    pose proof (std_max_ge_r zero (std_max a b) Hz HJ).
    pose proof (std_max_ge_l zero b Hz Hb).
    pose proof (std_max_ge_r zero b Hz Hb).
    pose proof (std_max_ge_l a b Ha Hb).
    pose proof (std_max_ge_r a b Ha Hb).
    apply leb_antisym.
    + destruct (std_max_cases a (std_max zero b)) as [-> | ->];
        [eauto using leb_trans|].
      destruct (std_max_cases zero b) as [-> | ->]; eauto using leb_trans.
    + destruct (std_max_cases zero (std_max a b)) as [-> | ->];
        [eauto using leb_trans|].
      destruct (std_max_cases a b) as [-> | ->]; eauto using leb_trans.
Qed.

Lemma eqb_cases x y :
  (x ==? y) = true ->
  x = y \/ exists s s', x = S754_zero s /\ y = S754_zero s'.
Proof.
  intros H. destruct y as [s'|s'| |s' m' e'].
  - destruct x as [s|[]| |[] m e]; try discriminate H. right. eauto.
  - destruct x as [[]|[]| |[] m e], s'; try discriminate H; now left.
  - destruct x as [[]|[]| |[] m e]; discriminate H.
  - left. now apply eqb_finite_eq.
Qed.

Lemma square_eqb x y : (x ==? y) = true -> x * x = y * y.
Proof.
  intros H. destruct (eqb_cases x y H) as [-> | [s [s' [-> ->]]]];
    [reflexivity|]. destruct s, s'; reflexivity.
Qed.

Lemma fabs_eqb x y : (x ==? y) = true -> fabs x = fabs y.
Proof.
  intros H. destruct (eqb_cases x y H) as [-> | [s [s' [-> ->]]]];
    reflexivity.
Qed.

(** The norms of the examples do what the statements ask of a norm. *)
Lemma norm_models :
  ignores_sign_of_zero hypot_model hypot3_model /\
  zero_at_origin hypot_model hypot3_model.
Proof.
  split; [split|split; reflexivity].
  - intros x x' y y' Hx Hy. unfold hypot_model.
    now rewrite (square_eqb _ _ Hx), (square_eqb _ _ Hy).
  - intros x x' y y' z z' Hx Hy Hz. unfold hypot3_model.
    now rewrite (fabs_eqb _ _ Hx), (fabs_eqb _ _ Hy), (fabs_eqb _ _ Hz).
Qed.

Lemma distanceTo_as_specified near hypot hypot3 b p :
  ignores_sign_of_zero hypot hypot3 ->
  isnan (xMinimum b - vx p) = false ->
  isnan (yMinimum b - vy p) = false ->
  is2d near b || isnan (vz p) = true \/ isnan (zMinimum b - vz p) = false ->
  distanceTo near hypot hypot3 b p = distance_of_gaps near hypot hypot3 b p.
Proof.
  intros [S2 S3] Hx Hy Hz. unfold distanceTo, distance_of_gaps, axis_gap.
  unfold xMinimum, xMaximum, yMinimum, yMaximum, zMinimum, zMaximum in *.
  pose proof (gap_nesting _ (vx p - Rect.xMaximum (mBounds2d b)) Hx) as Gx.
  pose proof (gap_nesting _ (vy p - Rect.yMaximum (mBounds2d b)) Hy) as Gy.
  destruct (is2d near b || isnan (vz p)).
  - now apply S2.
  - destruct Hz as [Hz | Hz]; [discriminate|].
    pose proof (gap_nesting _ (vz p - mZmax b) Hz) as Gz.
    now apply S3.
Qed.

(** C3 (counterexample): the point (-inf, 5, 5) lies within the bounds of
    the box (-inf, 0, 0, 10, 10, 10); the difference of the two
    infinities is NaN and [std::max] returns it, so that the gap of x is
    NaN and the distance is the norm of (NaN, 0, 0), whatever the norm
    and the tolerance helper; with the norms of the examples it is NaN,
    where the gap formula of the specification gives 0. *)
Lemma distanceTo_nan_inside :
  let near := qgsDoubleNear four_epsilon in
  let b := box ninf zero zero (of_Z 10) (of_Z 10) (of_Z 10) in
  let p := mkVector3D ninf (of_Z 5) (of_Z 5) in
  inside b p /\
  nested_gap (xMinimum b) (xMaximum b) (vx p) = nan /\
  (forall near hypot hypot3,
     near zero (of_Z 10) = false ->
     distanceTo near hypot hypot3 b p = hypot3 nan zero zero) /\
  distanceTo near hypot_model hypot3_model b p = nan /\
  distance_of_gaps near hypot_model hypot3_model b p = zero /\
  ~ distance_claim near hypot_model hypot3_model b p.
Proof.
  intros near b p.
  assert (Hin : inside b p) by (repeat split).
  split; [exact Hin|]. split; [reflexivity|].
  split.
  { intros near' hypot hypot3 Hn. unfold distanceTo, is2d.
    cbn [b p box new_QgsBox3D mZmin mZmax vz]. rewrite Hn. reflexivity. }
  split; [reflexivity|]. split; [reflexivity|].
  intros [_ H]. specialize (H Hin). discriminate H.
Qed.

(** C3 (amended): distanceTo hands to [std::hypot] the gaps of x and y,
    and the gap of z unless the box is 2D or the z of the point is NaN.
    For a norm that does not tell +0 from -0, and when no difference
    lowerBound - coord is NaN on an axis that contributes, the result is
    the norm of the gaps max(0, max(lowerBound - coord, coord -
    upperBound)) of the specification.  For such a norm that is +0 on
    zeros, the distance is 0 for every point of finite coordinates within
    the bounds of a box of binary64 numbers.  For the box
    (0,0,0,10,10,10), which any tolerance helper that tells 0 from 10
    finds 3D, the distance of (15,5,5) is the norm of (5, 0, 0) and the
    distance of (15,15,15) the norm of (5, 5, 5), where 5 * 5 is 25 and
    25 + 25 + 25 is 75 without rounding. *)
Theorem distanceTo_gaps near hypot hypot3 b p :
  (ignores_sign_of_zero hypot hypot3 ->
   isnan (xMinimum b - vx p) = false ->
   isnan (yMinimum b - vy p) = false ->
   is2d near b || isnan (vz p) = true \/ isnan (zMinimum b - vz p) = false ->
   distanceTo near hypot hypot3 b p = distance_of_gaps near hypot hypot3 b p) /\
  (ignores_sign_of_zero hypot hypot3 -> zero_at_origin hypot hypot3 ->
   valid_box b -> finite_vector p -> inside b p ->
   distanceTo near hypot hypot3 b p = zero) /\
  (near zero (of_Z 10) = false ->
   let cube := box zero zero zero (of_Z 10) (of_Z 10) (of_Z 10) in
   distanceTo near hypot hypot3 cube (mkVector3D (of_Z 15) (of_Z 5) (of_Z 5))
   = hypot3 (of_Z 5) zero zero /\
   distanceTo near hypot hypot3 cube (mkVector3D (of_Z 15) (of_Z 15) (of_Z 15))
   = hypot3 (of_Z 5) (of_Z 5) (of_Z 5) /\
   of_Z 5 * of_Z 5 = of_Z 25 /\
   of_Z 25 + of_Z 25 + of_Z 25 = of_Z 75).
Proof.
  split; [apply distanceTo_as_specified|].
  split; [apply distanceTo_inside|].
  intros Hn cube. unfold distanceTo, is2d.
  cbn [cube box new_QgsBox3D mZmin mZmax vz]. rewrite Hn.
  repeat split.
Qed.

(** The cube of side 10 and points inside and outside of it, with the
    norms of the examples. *)
Lemma distanceTo_gaps_witness :
  let near := qgsDoubleNear four_epsilon in
  let cube := box zero zero zero (of_Z 10) (of_Z 10) (of_Z 10) in
  let distance := distanceTo near hypot_model hypot3_model cube in
  distance (mkVector3D (of_Z 5) (of_Z 5) (of_Z 5)) = zero /\
  distance (mkVector3D (of_Z 15) (of_Z 5) (of_Z 5))
  = distance_of_gaps near hypot_model hypot3_model cube
      (mkVector3D (of_Z 15) (of_Z 5) (of_Z 5)) /\
  distance (mkVector3D (of_Z 15) (of_Z 5) (of_Z 5)) = of_Z 5 /\
  distance (mkVector3D (of_Z 15) (of_Z 15) (of_Z 15))
  = S754_finite false 4875289607221226 (-49).
Proof.
  intros near cube distance. destruct norm_models as [HS HZ].
  destruct (distanceTo_gaps near hypot_model hypot3_model cube
              (mkVector3D (of_Z 5) (of_Z 5) (of_Z 5))) as [_ [Hin _]].
  destruct (distanceTo_gaps near hypot_model hypot3_model cube
              (mkVector3D (of_Z 15) (of_Z 5) (of_Z 5))) as [Hg [_ Hex]].
  split; [apply (Hin HS HZ); repeat split|].
  split; [apply (Hg HS); [reflexivity | reflexivity | right; reflexivity]|].
  destruct (Hex eq_refl) as [H5 [H75 _]].
  split.
  - etransitivity; [exact H5 | vm_compute; reflexivity].
  - etransitivity; [exact H75 | vm_compute; reflexivity].
Defined.

(** ** Operations that do not round *)

Module Exact.

Local Open Scope Z_scope.

Lemma iter_pos_nat {A} (f : A -> A) p : forall x,
  iter_pos f p x = Nat.iter (Pos.to_nat p) f x.
Proof.
  induction p as [p IH | p IH |]; intros x; simpl iter_pos.
  - rewrite !IH, Pos2Nat.inj_xI.
    replace (S (2 * Pos.to_nat p))%nat
      with (Pos.to_nat p + S (Pos.to_nat p))%nat by lia.
    rewrite Nat.iter_add. f_equal.
    now rewrite Nat.iter_succ_r.
  - rewrite !IH, Pos2Nat.inj_xO.
    replace (2 * Pos.to_nat p)%nat
      with (Pos.to_nat p + Pos.to_nat p)%nat by lia.
    now rewrite Nat.iter_add.
  - reflexivity.
Qed.

(** Shifting out zeros loses nothing. *)
Lemma iter_shr_1_exact n : forall P m,
  Zpos P = Zpos m * 2 ^ Z.of_nat n ->
  Nat.iter n shr_1 (Build_shr_record (Zpos P) false false)
  = Build_shr_record (Zpos m) false false.
Proof.
  induction n as [|n IH]; intros P m H.
  - simpl in H. replace P with m by lia. reflexivity.
  - rewrite Nat.iter_succ_r.
    rewrite Nat2Z.inj_succ, Z.pow_succ_r in H by lia.
    destruct P as [P | P |]; try lia.
    simpl shr_1. apply IH. lia.
Qed.

(** The number of digits of a mantissa is fixed by its magnitude. *)
Lemma digits_shift P m k :
  0 <= k -> Zpos P = Zpos m * 2 ^ k ->
  Zpos (digits2_pos P) = Zpos (digits2_pos m) + k.
Proof.
  intros Hk H.
  pose proof (Digits.digits2_pos_bounds P) as [HP1 HP2].
  pose proof (Digits.digits2_pos_bounds m) as [Hm1 Hm2].
  set (dP := Zpos (digits2_pos P)) in *.
  set (dm := Zpos (digits2_pos m)) in *.
  assert (0 < dP) by (subst dP; lia).
  assert (0 < dm) by (subst dm; lia).
  assert (L : 2 ^ (dm - 1 + k) <= Zpos P)
    by (rewrite Z.pow_add_r, H by lia; nia).
  assert (U : Zpos P < 2 ^ (dm + k)).
  { rewrite Z.pow_add_r, H by lia.
    apply Z.mul_lt_mono_pos_r; [apply Z.pow_pos_nonneg; lia | lia]. }
  destruct (Z.lt_trichotomy dP (dm + k)) as [Hlt | [Heq | Hgt]]; [|exact Heq|].
  - assert (2 ^ dP <= 2 ^ (dm - 1 + k)) by (apply Z.pow_le_mono_r; lia). lia.
  - assert (2 ^ (dm + k) <= 2 ^ (dP - 1)) by (apply Z.pow_le_mono_r; lia). lia.
Qed.

Lemma canonical_fexp m e :
  bounded prec emax m e = true ->
  fexp prec emax (Zpos (digits2_pos m) + e) = e /\ (e <=? emax - prec) = true.
Proof.
  unfold bounded, canonical_mantissa.
  rewrite andb_true_iff, Z.eqb_eq. tauto.
Qed.

(** A mantissa that holds a binary64 number followed by [k] zeros is
    rounded to that number. *)
Lemma binary_round_aux_exact s P m e k :
  bounded prec emax m e = true -> 0 <= k -> Zpos P = Zpos m * 2 ^ k ->
  binary_round_aux prec emax s (Zpos P) (e - k) loc_Exact = S754_finite s m e.
Proof.
  intros Hb Hk HP.
  destruct (canonical_fexp m e Hb) as [Hc He].
  unfold binary_round_aux.
  assert (H1 : shr_fexp prec emax (Zpos P) (e - k) loc_Exact
               = (Build_shr_record (Zpos m) false false, e)).
  { unfold shr_fexp. cbn [Zdigits2 shr_record_of_loc].
    rewrite (digits_shift P m k Hk HP).
    replace (Zpos (digits2_pos m) + k + (e - k)) with (Zpos (digits2_pos m) + e) by lia.
    rewrite Hc. replace (e - (e - k)) with k by lia.
    unfold shr. destruct k as [|p|p]; [| |lia].
    - rewrite Z.pow_0_r in HP. replace P with m by lia.
      now rewrite Z.sub_0_r.
    - rewrite iter_pos_nat.
      rewrite (iter_shr_1_exact (Pos.to_nat p) P m)
        by (now rewrite positive_nat_Z).
      f_equal. lia. }
  rewrite H1. cbn [shr_m loc_of_shr_record round_nearest_even].
  assert (H2 : shr_fexp prec emax (Zpos m) e loc_Exact
               = (Build_shr_record (Zpos m) false false, e)).
  { unfold shr_fexp. cbn [Zdigits2 shr_record_of_loc].
    rewrite Hc, Z.sub_diag. reflexivity. }
  rewrite H2. cbn [shr_m]. now rewrite He.
Qed.

(** Multiplying a binary64 number by 1.0 gives it back. *)
Lemma mul_one x : valid x = true -> mul x one = x.
Proof.
  destruct x as [[]|[]| |s m e]; try reflexivity.
  intros Hb. unfold valid in Hb. cbn [valid_binary] in Hb.
  unfold mul, one, SFmul.
  replace (xorb s false) with s by (destruct s; reflexivity).
  replace (e + -52) with (e - 52) by lia.
  apply binary_round_aux_exact; [exact Hb | lia |].
  rewrite Pos2Z.inj_mul. reflexivity.
Qed.

(** A positive mantissa whose value is a binary64 number is rounded to
    that number. *)
Lemma binary_round_exact s M e m' e' :
  bounded prec emax m' e' = true -> -1074 <= e ->
  Zpos M * 2 ^ (e + 1074) = Zpos m' * 2 ^ (e' + 1074) ->
  binary_round prec emax s M e = S754_finite s m' e'.
Proof.
  intros Hb He H.
  destruct (canonical_fexp m' e' Hb) as [Hc _].
  pose proof (Digits.bounded_inv m' e' Hb) as [_ [He' _]].
  assert (Hmag : Zpos (digits2_pos M) + e = Zpos (digits2_pos m') + e').
  { assert (HP : 0 < Zpos M * 2 ^ (e + 1074))
      by (apply Z.mul_pos_pos; [lia | apply Z.pow_pos_nonneg; lia]).
    destruct (Zpos M * 2 ^ (e + 1074)) as [|P|P] eqn:EP; try lia.
    pose proof (digits_shift P M (e + 1074) ltac:(lia) (eq_sym EP)).
    pose proof (digits_shift P m' (e' + 1074) ltac:(lia) H).
    lia. }
  unfold binary_round. rewrite Hmag, Hc.
  unfold shl_align. destruct (e' - e) as [|d|d] eqn:Ed.
  - replace e with (e' - 0) by lia.
    apply binary_round_aux_exact; [exact Hb | lia |].
    replace e with e' in H by lia.
    apply Z.mul_reg_r in H; [rewrite H; lia|].
    apply Z.pow_nonzero; lia.
  - replace e with (e' - Zpos d) by lia.
    apply binary_round_aux_exact; [exact Hb | lia |].
    replace (e' + 1074) with (Zpos d + (e + 1074)) in H by lia.
    rewrite (Z.pow_add_r 2 (Zpos d) (e + 1074)), Z.mul_assoc in H by lia.
    apply Z.mul_reg_r in H; [exact H|].
    apply Z.pow_nonzero; lia.
  - replace e' with (e' - 0) at 1 by lia.
    apply binary_round_aux_exact; [exact Hb | lia |].
    rewrite Sign.Pos_iter_xO, Z.pow_0_r, Z.mul_1_r.
    replace (e + 1074) with (Zpos d + (e' + 1074)) in H by lia.
    rewrite (Z.pow_add_r 2 (Zpos d) (e' + 1074)), Z.mul_assoc in H by lia.
    apply Z.mul_reg_r in H; [exact H|].
    apply Z.pow_nonzero; lia.
Qed.

Lemma ulps_finite s m e :
  -1074 <= e -> ulps (S754_finite s m e) <> 0.
Proof.
  intros He. unfold ulps.
  assert (0 < Zpos m * 2 ^ (e + 1074))
    by (apply Z.mul_pos_pos; [lia | apply Z.pow_pos_nonneg; lia]).
  destruct s; cbn [cond_Zopp]; lia.
Qed.

(** A normalised integer whose value is a finite binary64 number is
    that number. *)
Lemma binary_normalize_exact D e t :
  -1074 <= e -> finite_double t = true ->
  D * 2 ^ (e + 1074) = ulps t ->
  (eqb (binary_normalize prec emax D e false) t) = true.
Proof.
  intros He Ht H. apply finite_double_inv in Ht.
  destruct Ht as [Hv [Hf _]].
  assert (Hp : 0 < 2 ^ (e + 1074)) by (apply Z.pow_pos_nonneg; lia).
  destruct t as [st|st| |st mt et]; try discriminate Hf.
  - cbn [ulps] in H. destruct D as [|M|M]; [|nia|nia].
    destruct st; reflexivity.
  - unfold valid in Hv. cbn [valid_binary] in Hv.
    unfold ulps in H.
    assert (0 < Zpos mt * 2 ^ (et + 1074)).
    { pose proof (Digits.bounded_inv mt et Hv).
      apply Z.mul_pos_pos; [lia | apply Z.pow_pos_nonneg; lia]. }
    destruct D as [|M|M], st; cbn [cond_Zopp] in H; try nia.
    + cbn [binary_normalize].
      rewrite (binary_round_exact false M e mt et Hv He) by lia.
      apply eqb_refl. reflexivity.
    + cbn [binary_normalize].
      rewrite (binary_round_exact true M e mt et Hv He) by lia.
      apply eqb_refl. reflexivity.
Qed.

(** Two finite binary64 numbers of the same value are equal. *)
Lemma ulps_inj x y :
  finite_double x = true -> finite_double y = true ->
  ulps x = ulps y -> (eqb x y) = true.
Proof.
  intros Hx Hy H.
  apply finite_double_inv in Hx. destruct Hx as [Hvx [Hfx _]].
  destruct x as [sx|sx| |sx mx ex]; try discriminate Hfx.
  - apply finite_double_inv in Hy. destruct Hy as [Hvy [Hfy _]].
    destruct y as [sy|sy| |sy my ey]; try discriminate Hfy.
    + destruct sx, sy; reflexivity.
    + unfold valid in Hvy. cbn [valid_binary] in Hvy.
      pose proof (Digits.bounded_inv my ey Hvy) as [_ [He _]].
      symmetry in H. apply ulps_finite in H; [contradiction | lia].
  - unfold valid in Hvx. cbn [valid_binary] in Hvx.
    pose proof (Digits.bounded_inv mx ex Hvx) as [_ [He _]].
    replace (S754_finite sx mx ex)
      with (binary_normalize prec emax (cond_Zopp sx (Zpos mx)) ex false).
    + apply binary_normalize_exact; [lia | exact Hy |].
      rewrite <- H. unfold ulps. destruct sx; cbn [cond_Zopp]; lia.
    + destruct sx; cbn [cond_Zopp Z.opp binary_normalize];
        apply binary_round_exact; auto; lia.
Qed.

Lemma ulps_zero x :
  finite_double x = true -> ulps x = 0 -> exists s, x = S754_zero s.
Proof.
  intros Hx H. apply finite_double_inv in Hx. destruct Hx as [Hv [Hf _]].
  destruct x as [s|s| |s m e]; try discriminate Hf; [now exists s|].
  unfold valid in Hv. cbn [valid_binary] in Hv.
  pose proof (Digits.bounded_inv m e Hv) as [_ [He _]].
  apply ulps_finite in H; [contradiction | lia].
Qed.

Lemma aligned_ulps s m e ez :
  -1074 <= ez -> ez <= e ->
  cond_Zopp s (Zpos (fst (shl_align m e ez))) * 2 ^ (ez + 1074)
  = ulps (S754_finite s m e).
Proof.
  intros H1 H2. rewrite Sign.shl_align_fst by exact H2. unfold ulps.
  replace (e + 1074) with ((e - ez) + (ez + 1074)) by lia.
  rewrite (Z.pow_add_r 2 (e - ez) (ez + 1074)) by lia.
  destruct s; cbn [cond_Zopp]; lia.
Qed.

(** A sum and a difference whose exact value is a finite binary64
    number are that number. *)
Lemma add_exact x y t :
  finite_double x = true -> finite_double y = true ->
  finite_double t = true -> ulps t = ulps x + ulps y ->
  (eqb (add x y) t) = true.
Proof.
  intros Hx Hy Ht H.
  pose proof (finite_double_inv x Hx) as [Hvx [Hfx _]].
  pose proof (finite_double_inv y Hy) as [Hvy [Hfy _]].
  destruct x as [sx|sx| |sx mx ex]; try discriminate Hfx;
    destruct y as [sy|sy| |sy my ey]; try discriminate Hfy.
  - cbn [ulps] in H. destruct (ulps_zero t Ht H) as [st ->].
    destruct sx, sy, st; reflexivity.
  - unfold add, SFadd. apply ulps_inj; auto; cbn [ulps] in *; lia.
  - unfold add, SFadd. apply ulps_inj; auto; cbn [ulps] in *; lia.
  - unfold valid in Hvx, Hvy. cbn [valid_binary] in Hvx, Hvy.
    pose proof (Digits.bounded_inv mx ex Hvx) as [_ [Hex _]].
    pose proof (Digits.bounded_inv my ey Hvy) as [_ [Hey _]].
    unfold add, SFadd.
    apply binary_normalize_exact; [lia | exact Ht |].
    rewrite Z.mul_add_distr_r, !aligned_ulps by lia. lia.
Qed.

Lemma sub_exact x y t :
  finite_double x = true -> finite_double y = true ->
  finite_double t = true -> ulps t = ulps x - ulps y ->
  (eqb (sub x y) t) = true.
Proof.
  intros Hx Hy Ht H.
  pose proof (finite_double_inv x Hx) as [Hvx [Hfx _]].
  pose proof (finite_double_inv y Hy) as [Hvy [Hfy _]].
  destruct x as [sx|sx| |sx mx ex]; try discriminate Hfx;
    destruct y as [sy|sy| |sy my ey]; try discriminate Hfy.
  - cbn [ulps] in H. destruct (ulps_zero t Ht H) as [st ->].
    destruct sx, sy, st; reflexivity.
  - assert (Ho : finite_double (S754_finite (negb sy) my ey) = true)
      by exact Hy.
    unfold sub, SFsub. apply ulps_inj; auto.
    rewrite H. unfold ulps. destruct sy; cbn [negb cond_Zopp]; lia.
  - unfold sub, SFsub. apply ulps_inj; auto; cbn [ulps] in *; lia.
  - unfold valid in Hvx, Hvy. cbn [valid_binary] in Hvx, Hvy.
    pose proof (Digits.bounded_inv mx ex Hvx) as [_ [Hex _]].
    pose proof (Digits.bounded_inv my ey Hvy) as [_ [Hey _]].
    unfold sub, SFsub.
    apply binary_normalize_exact; [lia | exact Ht |].
    rewrite Z.mul_sub_distr_r, !aligned_ulps by lia. lia.
Qed.

(** Numbers that are equal as doubles are both finite or neither, and
    have the same value. *)
Lemma eqb_finite_double x t :
  (eqb x t) = true -> finite_double t = true ->
  finite_double x = true /\ ulps x = ulps t.
Proof.
  intros He Ht. destruct (eqb_cases x t He) as [-> | [s [s' [-> ->]]]].
  - now split.
  - split; reflexivity.
Qed.

End Exact.

(** ** scale *)

Lemma scaled_by_one x c :
  finite_double x = true -> finite_double c = true ->
  exact_difference x c -> (c + (x - c) * one ==? x) = true.
Proof.
  intros Hx Hc [d [Hd Hu]].
  pose proof (Exact.sub_exact x c d Hx Hc Hd Hu) as E.
  destruct (Exact.eqb_finite_double _ _ E Hd) as [Hf Hv].
  rewrite Exact.mul_one by (now apply finite_double_inv in Hf).
  apply Exact.add_exact; auto. lia.
Qed.

Lemma sub_finite_center x c : is_finite (x - c) = true -> is_finite c = true.
Proof.
  destruct x as [[]|[]| |[] mx ex], c as [[]|[]| |[] mc ec]; intros H;
    first [ reflexivity | discriminate H ].
Qed.

Lemma scaled_by_zero x c :
  is_finite (x - c) = true -> (c + (x - c) * zero ==? c) = true.
Proof.
  intros H. pose proof (sub_finite_center x c H) as Hc.
  destruct (x - c) as [sr|sr| |sr mr er]; try discriminate H;
    destruct c as [[]|[]| |sc mc ec]; try discriminate Hc;
    try (destruct sr; reflexivity);
    unfold mul, add, SFmul, SFadd, zero; apply eqb_refl; reflexivity.
Qed.

Lemma scaled_by_zero_nan x c :
  is_finite (x - c) = false -> isnan (c + (x - c) * zero) = true.
Proof.
  intros H.
  destruct (x - c) as [sr|sr| |sr mr er]; try discriminate H;
    destruct c as [[]|[]| |[] mc ec]; reflexivity.
Qed.

Lemma scale_bounds f cx cy cz b :
  xMinimum (scale f cx cy cz b) = cx + (xMinimum b - cx) * f /\
  xMaximum (scale f cx cy cz b) = cx + (xMaximum b - cx) * f /\
  yMinimum (scale f cx cy cz b) = cy + (yMinimum b - cy) * f /\
  yMaximum (scale f cx cy cz b) = cy + (yMaximum b - cy) * f /\
  zMinimum (scale f cx cy cz b) = cz + (zMinimum b - cz) * f /\
  zMaximum (scale f cx cy cz b) = cz + (zMaximum b - cz) * f.
Proof. destruct b as [[x0 y0 x1 y1] z0 z1]. repeat split. Qed.

(** C5 (counterexample): scaling by 1.0 about (1, 1, 1) moves the bound
    0.1 to 0.09999999999999998, because 0.1 - 1 is rounded; scaling by
    0.0 turns an infinite bound into NaN, because infinity times zero is
    NaN. *)
Lemma scale_claim_fails :
  let tenth := S754_finite false 7205759403792794 (-56) in
  let b1 := box tenth zero zero (of_Z 10) (of_Z 10) (of_Z 10) in
  let b2 := box zero zero zero (of_Z 10) (of_Z 10) pinf in
  xMinimum (scale one one one one b1)
  = S754_finite false 7205759403792792 (-56) /\
  zMaximum (scale zero one one one b2) = nan /\
  ~ scale_claim b1 one one one /\ ~ scale_claim b2 one one one.
Proof.
  intros tenth b1 b2.
  split; [vm_compute; reflexivity|]. split; [vm_compute; reflexivity|].
  split.
  - intros [[H _] _]. vm_compute in H. discriminate H.
  - intros [_ [_ [_ [_ [_ [_ H]]]]]]. vm_compute in H. discriminate H.
Qed.

(** C5 (amended): scale(1.0, center) leaves the six bounds of a box of
    finite bounds unchanged when the center is finite and every exact
    difference bound - center is a double, so that no operation rounds;
    scale(0.0, center) makes every bound equal to the coordinate of the
    center on its axis when every computed difference bound - center is
    finite; a bound whose difference is not finite becomes NaN. *)
Theorem scale_one_and_zero b cx cy cz :
  (finite_box b ->
   finite_double cx = true -> finite_double cy = true ->
   finite_double cz = true ->
   exact_differences b cx cy cz ->
   same_bounds (scale one cx cy cz b) b) /\
  (finite_differences b cx cy cz ->
   collapsed (scale zero cx cy cz b) cx cy cz) /\
  ((is_finite (xMinimum b - cx) = false ->
    isnan (xMinimum (scale zero cx cy cz b)) = true) /\
   (is_finite (xMaximum b - cx) = false ->
    isnan (xMaximum (scale zero cx cy cz b)) = true) /\
   (is_finite (yMinimum b - cy) = false ->
    isnan (yMinimum (scale zero cx cy cz b)) = true) /\
   (is_finite (yMaximum b - cy) = false ->
    isnan (yMaximum (scale zero cx cy cz b)) = true) /\
   (is_finite (zMinimum b - cz) = false ->
    isnan (zMinimum (scale zero cx cy cz b)) = true) /\
   (is_finite (zMaximum b - cz) = false ->
    isnan (zMaximum (scale zero cx cy cz b)) = true)).
Proof.
  destruct (scale_bounds one cx cy cz b) as [E1 [E2 [E3 [E4 [E5 E6]]]]].
  destruct (scale_bounds zero cx cy cz b) as [Z1 [Z2 [Z3 [Z4 [Z5 Z6]]]]].
  split; [|split].
  - intros [Fx0 [Fy0 [Fz0 [Fx1 [Fy1 Fz1]]]]] Fcx Fcy Fcz
           [Dx0 [Dx1 [Dy0 [Dy1 [Dz0 Dz1]]]]].
    unfold same_bounds. rewrite E1, E2, E3, E4, E5, E6.
    repeat split; apply scaled_by_one; assumption.
  - intros [Dx0 [Dx1 [Dy0 [Dy1 [Dz0 Dz1]]]]].
    unfold collapsed. rewrite Z1, Z2, Z3, Z4, Z5, Z6.
    repeat split; apply scaled_by_zero; assumption.
  - rewrite Z1, Z2, Z3, Z4, Z5, Z6.
    repeat split; apply scaled_by_zero_nan.
Qed.

(** The cube of side 10 scaled about its centre (5, 5, 5); with an
    infinite zmax, that bound becomes NaN. *)
Lemma scale_one_and_zero_witness :
  let b := box zero zero zero (of_Z 10) (of_Z 10) (of_Z 10) in
  let five := of_Z 5 in
  scale one five five five b = b /\
  same_bounds (scale one five five five b) b /\
  collapsed (scale zero five five five b) five five five /\
  isnan (zMaximum (scale zero five five five
                     (box zero zero zero (of_Z 10) (of_Z 10) pinf))) = true.
Proof.
  intros b five.
  destruct (scale_one_and_zero b five five five) as [H1 [H0 _]].
  destruct (scale_one_and_zero (box zero zero zero (of_Z 10) (of_Z 10) pinf)
              five five five) as [_ [_ [_ [_ [_ [_ [_ HN]]]]]]].
  split; [vm_compute; reflexivity|]. split.
  - apply H1; try reflexivity; [repeat split|].
    assert (Lo : exact_difference zero five)
      by (exists (of_Z (-5)); split; vm_compute; reflexivity).
    assert (Hi : exact_difference (of_Z 10) five)
      by (exists (of_Z 5); split; vm_compute; reflexivity).
    repeat split; assumption.
  - split; [apply H0; repeat split|]. apply HN. reflexivity.
Defined.

(** ** toString *)

Lemma ltb_trans a b c :
  (a <? b) = true -> (b <? c) = true -> (a <? c) = true.
Proof.
  unfold_cmp.
  destruct (SFcompare a b) as [[]|] eqn:E1; try discriminate.
  destruct (SFcompare b c) as [[]|] eqn:E2; try discriminate.
  now rewrite (compare_lt_trans _ _ _ E1 E2).
Qed.

Lemma ltb_leb_trans a b c :
  (a <? b) = true -> (b <=? c) = true -> (a <? c) = true.
Proof.
  intros H1 H2. unfold leb, SFleb in H2.
  destruct (SFcompare b c) as [[]|] eqn:E; try discriminate.
  - unfold ltb, SFltb in *. now rewrite <- (compare_eq_r _ _ a E).
  - apply ltb_trans with b; [exact H1|]. unfold ltb, SFltb. now rewrite E.
Qed.

Lemma leb_ltb_trans a b c :
  (a <=? b) = true -> (b <? c) = true -> (a <? c) = true.
Proof.
  intros H1 H2. unfold leb, SFleb in H1.
  destruct (SFcompare a b) as [[]|] eqn:E; try discriminate.
  - unfold ltb, SFltb in *. now rewrite (compare_eq_l _ _ c E).
  - apply ltb_trans with b; [|exact H2]. unfold ltb, SFltb. now rewrite E.
Qed.

(** The test of toString on width and height is a test on the smaller of
    the two. *)
Lemma adaptive_test_on_minimum w h ten :
  isnan w = false -> isnan h = false ->
  ((w <? ten) || (h <? ten)) && ((w >? zero) && (h >? zero))
  = (zero <? std_min w h) && (std_min w h <? ten).
Proof.
  intros Hw Hh. unfold std_min, gtb.
  destruct (h <? w) eqn:E.
  - destruct (zero <? h) eqn:Ph.
    + rewrite (ltb_trans _ _ _ Ph E). cbn [andb]. rewrite andb_true_r.
      destruct (h <? ten) eqn:Eh; [apply orb_true_r|].
      destruct (w <? ten) eqn:Ew; [|reflexivity].
      rewrite (ltb_trans _ _ _ E Ew) in Eh. discriminate.
    + rewrite !andb_false_r. reflexivity.
  - pose proof (not_ltb_leb _ _ Hh Hw E) as L.
    destruct (zero <? w) eqn:Pw.
    + rewrite (ltb_leb_trans _ _ _ Pw L). cbn [andb]. rewrite andb_true_r.
      destruct (w <? ten) eqn:Ew; [reflexivity|].
      destruct (h <? ten) eqn:Eh; [|reflexivity].
      rewrite (leb_ltb_trans _ _ _ L Eh) in Ew. discriminate.
    + cbn [andb]. rewrite !andb_false_r. reflexivity.
Qed.

Lemma append_assoc_r (s1 s2 s3 : string) :
  ((s1 ++ s2) ++ s3 = s1 ++ (s2 ++ s3))%string.
Proof. induction s1 as [|c s1 IH]; simpl; [reflexivity | now rewrite IH]. Qed.

Lemma cap_is_min p : (if (p >? 20)%Z then 20%Z else p) = Z.min 20 p.
Proof. destruct (Z.gtb_spec p 20); lia. Qed.

Lemma precision_used_cases log10 ceil static_cast_int b precision :
  let used := precision_used log10 ceil static_cast_int b precision in
  ((0 <= precision)%Z -> used = precision) /\
  ((precision < 0)%Z ->
   (used <= 20)%Z /\
   (isnan (width b) = false -> isnan (height b) = false ->
    used = decimals_for log10 ceil static_cast_int
             (std_min (width b) (height b))) /\
   (isnan (width b) || isnan (height b) = true -> used = 0%Z)).
Proof.
  unfold precision_used. split.
  - intros H. destruct (Z.ltb_spec precision 0); [lia | reflexivity].
  - intros H. destruct (Z.ltb_spec precision 0); [|lia].
    split; [|split].
    + destruct (_ && _); [rewrite cap_is_min|]; lia.
    + intros Hw Hh. unfold decimals_for.
      rewrite (adaptive_test_on_minimum _ _ (of_Z 10) Hw Hh).
      destruct (_ && _); [apply cap_is_min | reflexivity].
    + intros Hn. unfold gtb.
      replace ((zero <? width b) && (zero <? height b)) with false;
        [now rewrite andb_false_r|].
      apply orb_true_iff in Hn. destruct Hn as [Hn | Hn].
      * destruct (width b); try discriminate Hn. reflexivity.
      * destruct (height b); try discriminate Hn.
        now rewrite andb_false_r.
Qed.

(** C7: toString answers "Null" for a null box, else "Empty" for an empty
    one, else the pattern "xmin,ymin,zmin : xmax,ymax,zmax" with every
    bound rendered at the precision used; this is the precision given
    when it is not negative, and otherwise a number of decimals of at
    most 20 which is derived from the smaller of width and height when
    both are numbers, and is 0 when one of them is NaN.  This holds
    whatever the renderer of numbers, the logarithm, the rounding, the
    tolerance helper and the emptiness test of the rectangle are. *)
Theorem toString_cases near rect_isEmpty number_f log10 ceil
    static_cast_int b precision :
  let used := precision_used log10 ceil static_cast_int b precision in
  let out :=
    toString near rect_isEmpty number_f log10 ceil static_cast_int
      b precision in
  (isNull b = true -> out = "Null"%string) /\
  (isNull b = false -> isEmpty near rect_isEmpty b = true ->
   out = "Empty"%string) /\
  (isNull b = false -> isEmpty near rect_isEmpty b = false ->
   out = rendered number_f b used) /\
  ((0 <= precision)%Z -> used = precision) /\
  ((precision < 0)%Z ->
   (used <= 20)%Z /\
   (isnan (width b) = false -> isnan (height b) = false ->
    used = decimals_for log10 ceil static_cast_int
             (std_min (width b) (height b))) /\
   (isnan (width b) || isnan (height b) = true -> used = 0%Z)).
Proof.
  intros used out.
  split; [|split; [|split]].
  - intros Hn. unfold out, toString. now rewrite Hn.
  - intros Hn He. unfold out, toString. now rewrite Hn, He.
  - intros Hn He. unfold out, toString. rewrite Hn, He.
    unfold rendered, xMinimum, yMinimum, zMinimum, xMaximum, yMaximum,
      zMaximum. cbn [String.concat].
    rewrite !append_assoc_r. reflexivity.
  - apply precision_used_cases.
Qed.

(** The examples of the specification and a small box, with the
    concrete collaborators. *)
Lemma toString_cases_witness :
  let near := qgsDoubleNear four_epsilon in
  let show :=
    toString near (rect_isEmpty_model near) number_f_model
      log10_floor ceil_model static_cast_int_model in
  let half := S754_finite false 4503599627370496 (-53) in
  show (box zero zero zero (of_Z 10) (of_Z 10) (of_Z 10)) 1%Z
  = "0.0,0.0,0.0 : 10.0,10.0,10.0"%string /\
  show (box zero zero zero half half half) (-1)%Z
  = "0.00,0.00,0.00 : 0.50,0.50,0.50"%string /\
  show (setMinimal (box zero zero zero half half half)) (-1)%Z
  = "Null"%string /\
  show (box zero zero zero (of_Z 10) (of_Z 10) zero) 1%Z = "Empty"%string /\
  precision_used log10_floor ceil_model static_cast_int_model
    (box zero zero zero half half half) (-1)%Z = 2%Z.
Proof.
  intros near show half.
  pose (run := toString_cases near (rect_isEmpty_model near) number_f_model
                 log10_floor ceil_model static_cast_int_model).
  split; [|split; [|split; [|split]]].
  - destruct (run (box zero zero zero (of_Z 10) (of_Z 10) (of_Z 10)) 1%Z)
      as [_ [_ [Hr [Hp _]]]].
    unfold show. rewrite (Hr eq_refl eq_refl), (Hp ltac:(lia)).
    vm_compute. reflexivity.
  - destruct (run (box zero zero zero half half half) (-1)%Z)
      as [_ [_ [Hr [_ Hp]]]].
    destruct (Hp ltac:(lia)) as [_ [Hm _]].
    unfold show. rewrite (Hr eq_refl eq_refl), (Hm eq_refl eq_refl).
    vm_compute. reflexivity.
  - destruct (run (setMinimal (box zero zero zero half half half)) (-1)%Z)
      as [Hn _].
    exact (Hn eq_refl).
  - destruct (run (box zero zero zero (of_Z 10) (of_Z 10) zero) 1%Z)
      as [_ [He _]].
    exact (He eq_refl eq_refl).
  - destruct (run (box zero zero zero half half half) (-1)%Z)
      as [_ [_ [_ [_ Hp]]]].
    destruct (Hp ltac:(lia)) as [_ [Hm _]].
    rewrite (Hm eq_refl eq_refl). vm_compute. reflexivity.
Defined.

(** ** 2D boxes and 3D boxes *)

(** A box that [is2d] rejects has z bounds that are numbers, in order and
    not near each other. *)
Lemma is2d_false_ordered near b :
  is2d near b = false ->
  near (mZmin b) (mZmax b) = false /\ isnan (mZmin b) = false /\
  isnan (mZmax b) = false /\ (mZmin b <=? mZmax b) = true.
Proof.
  unfold is2d. rewrite !orb_false_iff. intros [[[Hn Hg] Ha] Hb].
  repeat split; auto. unfold gtb in Hg. now apply not_ltb_leb.
Qed.

Lemma is2d_false_not_null near b : is2d near b = false -> isNull b = false.
Proof.
  intros H. destruct (is2d_false_ordered near b H) as [_ [Ha [Hb Hle]]].
  apply not_true_is_false. intros HN. unfold isNull in HN.
  apply orb_true_iff in HN. rewrite !andb_true_iff in HN.
  destruct HN as [HN | HN]; decompose [and] HN; [congruence|].
  match goal with
  | H1 : (mZmin b ==? DBL_MAX) = true, H2 : (mZmax b ==? - DBL_MAX) = true |- _ =>
      rewrite (leb_eqb_compat _ _ _ _ H1 H2) in Hle
  end.
  vm_compute in Hle. discriminate.
Qed.

Lemma is3D_not_is2d near b : is3D near b = negb (is2d near b).
Proof.
  unfold is3D. destruct (is2d near b) eqn:H; [reflexivity|].
  now rewrite (is2d_false_not_null near b H).
Qed.

(** X2: [is3D] is the negation of [is2d]: its test of [isNull] never
    changes the answer, since a null box is always 2D.  A box is 3D
    exactly when zmin <= zmax holds (so that neither is NaN) and the two
    are not near each other. *)
Theorem is3D_negb_is2d near b :
  is3D near b = negb (is2d near b) /\
  is3D near b
  = negb (near (zMinimum b) (zMaximum b)) && (zMinimum b <=? zMaximum b).
Proof.
  split; [apply is3D_not_is2d|].
  rewrite is3D_not_is2d. unfold zMinimum, zMaximum.
  destruct (is2d near b) eqn:H.
  - unfold is2d, gtb in H. simpl.
    destruct (near (mZmin b) (mZmax b)); [reflexivity|]. simpl in *.
    destruct (mZmin b <=? mZmax b) eqn:Hle; [|reflexivity].
    destruct (leb_not_nan _ _ Hle) as [Ha Hb].
    rewrite (leb_not_ltb _ _ Hle), Ha, Hb in H. discriminate.
  - destruct (is2d_false_ordered near b H) as [Hn [_ [_ Hle]]].
    now rewrite Hn, Hle.
Qed.

(** ** Containment *)

(** X3: the two ways of asking whether a point is contained agree:
    [contains( p )] gives what [contains( p.x(), p.y(), p.z() )] gives, as
    soon as the rectangle answers the same for the point and for its
    coordinates. *)
Theorem contains_point_as_coordinates near rect_contains_xy
    rect_contains_point b p :
  rect_contains_point (mBounds2d b) p
  = rect_contains_xy (mBounds2d b) (Point.x p) (Point.y p) ->
  contains_point near rect_contains_xy rect_contains_point b p
  = contains_xyz near rect_contains_xy b (Point.x p) (Point.y p) (Point.z p).
Proof.
  intros H. unfold contains_point. rewrite is3D_not_is2d.
  destruct (is2d near b) eqn:H2; [|reflexivity]. simpl.
  unfold contains_xyz. rewrite H2, orb_true_r, H.
  now destruct (rect_contains_xy _ _ _).
Qed.

(** A point above the cube and a flat box: the two overloads agree. *)
Lemma contains_point_as_coordinates_witness :
  let p := mkQgsPoint (of_Z 5) (of_Z 5) (of_Z 15) in
  let flat := box zero zero zero (of_Z 10) (of_Z 10) zero in
  contains_point near_model rect_contains_xy_model rect_contains_point_model
    cube10 p = false /\
  contains_xyz near_model rect_contains_xy_model cube10
    (of_Z 5) (of_Z 5) (of_Z 15) = false /\
  contains_point near_model rect_contains_xy_model rect_contains_point_model
    flat p
  = contains_xyz near_model rect_contains_xy_model flat
      (of_Z 5) (of_Z 5) (of_Z 15).
Proof.
  intros p flat.
  split; [vm_compute; reflexivity|].
  split; [vm_compute; reflexivity|].
  apply (contains_point_as_coordinates near_model rect_contains_xy_model
           rect_contains_point_model flat p).
  reflexivity.
Defined.

(** X4: the z bounds never keep a box from containing itself or from
    intersecting itself, whatever they are (NaN, inverted, equal): the
    answer is the one of the rectangle. *)
Theorem contains_and_intersects_itself near rect_contains b :
  contains_box near rect_contains b b
  = rect_contains (mBounds2d b) (mBounds2d b) /\
  intersects near b b = Rect.intersects (mBounds2d b) (mBounds2d b).
Proof.
  split.
  - unfold contains_box. destruct (rect_contains _ _); [|reflexivity]. simpl.
    rewrite orb_diag. destruct (is2d near b) eqn:H; [reflexivity|].
    destruct (is2d_false_ordered near b H) as [_ [Ha [Hb _]]].
    unfold geb. now rewrite !leb_refl.
  - unfold intersects. destruct (Rect.intersects _ _); [|reflexivity]. simpl.
    rewrite orb_diag. destruct (is2d near b) eqn:H; [reflexivity|].
    destruct (is2d_false_ordered near b H) as [_ [_ [_ Hle]]].
    now destruct (mZmin b >? mZmin b), (mZmax b <? mZmax b).
Qed.

(** X5: containment is transitive through a 3D box: if A contains B, B
    contains C and B is not 2D, then A contains C as soon as its rectangle
    contains the one of C.  (Through a 2D box B the z ranges of A and C
    are never compared.) *)
Theorem contains_box_transitive near rect_contains A B C :
  is2d near B = false ->
  contains_box near rect_contains A B = true ->
  contains_box near rect_contains B C = true ->
  rect_contains (mBounds2d A) (mBounds2d C) = true ->
  contains_box near rect_contains A C = true.
Proof.
  intros HB HAB HBC HR. unfold contains_box in *. rewrite HR. simpl.
  destruct (rect_contains (mBounds2d A) (mBounds2d B)); [|discriminate].
  destruct (rect_contains (mBounds2d B) (mBounds2d C)); [|discriminate].
  simpl in *. rewrite HB in *. simpl in *. rewrite orb_false_r in HBC.
  destruct (is2d near A); [now rewrite orb_true_r|].
  destruct (is2d near C); [reflexivity|]. simpl.
  unfold geb in *. apply andb_true_iff in HAB, HBC.
  destruct HAB as [H1 H2], HBC as [H3 H4].
  now rewrite (leb_trans _ _ _ H1 H3), (leb_trans _ _ _ H4 H2).
Qed.

(** Three nested cubes. *)
Lemma contains_box_transitive_witness :
  let inner := box (of_Z 4) (of_Z 4) (of_Z 4) (of_Z 5) (of_Z 5) (of_Z 5) in
  let middle := box (of_Z 2) (of_Z 2) (of_Z 2) (of_Z 8) (of_Z 8) (of_Z 8) in
  contains_box near_model rect_contains_model cube10 inner = true.
Proof.
  intros inner middle.
  apply (contains_box_transitive near_model rect_contains_model
           cube10 middle inner); reflexivity.
Defined.

(** X6: what a contained 3D box contains, the containing box contains: if
    A contains B, B is not 2D and B contains (x, y, z), then A contains
    (x, y, z) as soon as its rectangle contains (x, y). *)
Theorem contains_box_then_point near rect_contains rect_contains_xy A B x y z :
  is2d near B = false ->
  contains_box near rect_contains A B = true ->
  contains_xyz near rect_contains_xy B x y z = true ->
  rect_contains_xy (mBounds2d A) x y = true ->
  contains_xyz near rect_contains_xy A x y z = true.
Proof.
  intros HB HAB HBP HR. unfold contains_box, contains_xyz in *.
  rewrite HR. simpl.
  destruct (rect_contains (mBounds2d A) (mBounds2d B)); [|discriminate].
  destruct (rect_contains_xy (mBounds2d B) x y); [|discriminate].
  simpl in *. rewrite HB in *. simpl in *.
  destruct (isnan z); [reflexivity|]. simpl in *.
  destruct (is2d near A); [reflexivity|].
  unfold geb in *. apply andb_true_iff in HAB, HBP.
  destruct HAB as [H1 H2], HBP as [H3 H4].
  now rewrite (leb_trans _ _ _ H1 H3), (leb_trans _ _ _ H4 H2).
Qed.

(** The cube, a smaller cube inside it and a point of the smaller one. *)
Lemma contains_box_then_point_witness :
  contains_xyz near_model rect_contains_xy_model cube10
    (of_Z 3) (of_Z 4) (of_Z 5) = true.
Proof.
  apply (contains_box_then_point near_model rect_contains_model
           rect_contains_xy_model cube10
           (box (of_Z 2) (of_Z 2) (of_Z 2) (of_Z 8) (of_Z 8) (of_Z 8)));
    reflexivity.
Defined.

(** X7: a box intersects every box it contains, as soon as their
    rectangles intersect: the z test of [intersects] holds whenever the
    one of [contains] does. *)
Theorem contains_box_intersects near rect_contains A B :
  contains_box near rect_contains A B = true ->
  Rect.intersects (mBounds2d A) (mBounds2d B) = true ->
  intersects near A B = true.
Proof.
  intros HAB HR. unfold contains_box, intersects in *. rewrite HR. simpl.
  destruct (rect_contains (mBounds2d A) (mBounds2d B)); [|discriminate].
  simpl in *.
  destruct (is2d near B) eqn:HB; [reflexivity|].
  destruct (is2d near A) eqn:HA; [reflexivity|]. simpl in *.
  unfold geb, gtb in *. apply andb_true_iff in HAB. destruct HAB as [H1 H2].
  rewrite (leb_not_ltb _ _ H1), (leb_not_ltb _ _ H2).
  now destruct (is2d_false_ordered near B HB) as [_ [_ [_ Hle]]].
Qed.

(** The cube and a smaller cube inside it. *)
Lemma contains_box_intersects_witness :
  intersects near_model cube10
    (box (of_Z 2) (of_Z 2) (of_Z 2) (of_Z 8) (of_Z 8) (of_Z 8)) = true.
Proof.
  apply (contains_box_intersects near_model rect_contains_model);
    reflexivity.
Defined.

(** ** Growing a box *)

Lemma std_min_le_arg a b :
  isnan b = false -> isnan (std_min a b) = false -> (std_min a b <=? b) = true.
Proof.
  unfold std_min. intros Hb. destruct (b <? a) eqn:E; intros Ha.
  - now apply leb_refl.
  - now apply not_ltb_leb.
Qed.

Lemma std_max_ge_arg a b :
  isnan b = false -> isnan (std_max a b) = false -> (b <=? std_max a b) = true.
Proof.
  unfold std_max. intros Hb. destruct (a <? b) eqn:E; intros Ha.
  - now apply leb_refl.
  - now apply not_ltb_leb.
Qed.

Lemma std_max_ge_self a b :
  isnan a = false -> isnan (std_max a b) = false -> (a <=? std_max a b) = true.
Proof.
  unfold std_max. intros Ha. destruct (a <? b) eqn:E; intros Hb.
  - now apply ltb_leb.
  - now apply leb_refl.
Qed.

Lemma std_min_le_self a b :
  isnan a = false -> isnan (std_min a b) = false -> (std_min a b <=? a) = true.
Proof.
  unfold std_min. intros Ha. destruct (b <? a) eqn:E; intros Hb.
  - now apply ltb_leb.
  - now apply leb_refl.
Qed.

Lemma std_min_keeps_number a b : isnan a = false -> isnan (std_min a b) = false.
Proof.
  intros Ha. unfold std_min. destruct (b <? a) eqn:E; [|exact Ha].
  now destruct (ltb_not_nan _ _ E).
Qed.

Lemma std_max_keeps_number a b : isnan a = false -> isnan (std_max a b) = false.
Proof.
  intros Ha. unfold std_max. destruct (a <? b) eqn:E; [|exact Ha].
  now destruct (ltb_not_nan _ _ E).
Qed.

Lemma std_min_nan_l a b : isnan a = true -> std_min a b = a.
Proof.
  intros H. destruct a; try discriminate. unfold std_min.
  now destruct b as [[]|[]| |[]].
Qed.

Lemma std_max_nan_l a b : isnan a = true -> std_max a b = a.
Proof. intros H. destruct a; try discriminate. reflexivity. Qed.

Lemma std_min_nan_r a b : isnan b = true -> std_min a b = a.
Proof. intros H. destruct b; try discriminate. reflexivity. Qed.

Lemma std_max_nan_r a b : isnan b = true -> std_max a b = a.
Proof.
  intros H. destruct b; try discriminate. unfold std_max.
  now destruct a as [[]|[]| |[]].
Qed.

Lemma combineAll_z pts : forall b,
  zMinimum (combineAll pts b) = fold_left std_min (map pz pts) (zMinimum b) /\
  zMaximum (combineAll pts b) = fold_left std_max (map pz pts) (zMaximum b).
Proof.
  unfold combineAll.
  induction pts as [|p pts IH]; intros b; [now split|].
  cbn [fold_left map].
  destruct (IH (combineWith (px p) (py p) (pz p) b)) as [H1 H2].
  rewrite H1, H2. now split.
Qed.

Lemma fold_min_nan vs : forall m, isnan m = true -> fold_left std_min vs m = m.
Proof.
  induction vs as [|v vs IH]; intros m H; [reflexivity|].
  cbn [fold_left]. rewrite (std_min_nan_l m v H). now apply IH.
Qed.

Lemma fold_max_nan vs : forall m, isnan m = true -> fold_left std_max vs m = m.
Proof.
  induction vs as [|v vs IH]; intros m H; [reflexivity|].
  cbn [fold_left]. rewrite (std_max_nan_l m v H). now apply IH.
Qed.

(** X8: a NaN z bound is never repaired by adding points: whatever
    points [combineWith] is given, a box with a NaN zmin or a NaN zmax
    keeps it, and stays 2D. *)
Theorem combineWith_keeps_nan_z near pts b :
  isnan (zMinimum b) = true \/ isnan (zMaximum b) = true ->
  (isnan (zMinimum b) = true -> zMinimum (combineAll pts b) = zMinimum b) /\
  (isnan (zMaximum b) = true -> zMaximum (combineAll pts b) = zMaximum b) /\
  is2d near (combineAll pts b) = true.
Proof.
  intros H. destruct (combineAll_z pts b) as [E1 E2].
  assert (H1 : isnan (zMinimum b) = true ->
               zMinimum (combineAll pts b) = zMinimum b)
    by (intros Hn; rewrite E1; now apply fold_min_nan).
  assert (H2 : isnan (zMaximum b) = true ->
               zMaximum (combineAll pts b) = zMaximum b)
    by (intros Hn; rewrite E2; now apply fold_max_nan).
  split; [exact H1|]. split; [exact H2|].
  unfold is2d. fold (zMinimum (combineAll pts b)).
  fold (zMaximum (combineAll pts b)).
  destruct H as [Hn | Hn].
  - rewrite (H1 Hn), Hn. now rewrite orb_true_r.
  - rewrite (H2 Hn), Hn. now rewrite !orb_true_r.
Qed.

(** The all-NaN box after two points. *)
Lemma combineWith_keeps_nan_z_witness :
  let pts := [(zero, zero, zero); (of_Z 10, of_Z 10, of_Z 10)] in
  zMinimum (combineAll pts null_box) = nan /\
  zMaximum (combineAll pts null_box) = nan /\
  is2d near_model (combineAll pts null_box) = true.
Proof.
  intros pts.
  destruct (combineWith_keeps_nan_z near_model pts null_box
              (or_introl eq_refl)) as [H1 [H2 H3]].
  split; [exact (H1 eq_refl)|]. split; [exact (H2 eq_refl)|]. exact H3.
Defined.

(** X9: a point leaves the z range as it is when it has no z (z is NaN)
    or when its z lies within the range. *)
Theorem combineWith_z_unchanged x y z b :
  isnan z = true \/
  ((zMinimum b <=? z) = true /\ (z <=? zMaximum b) = true) ->
  zMinimum (combineWith x y z b) = zMinimum b /\
  zMaximum (combineWith x y z b) = zMaximum b.
Proof.
  intros H. unfold combineWith, zMinimum, zMaximum in *. cbn [mZmin mZmax].
  destruct H as [H | [H1 H2]].
  - now rewrite (std_min_nan_r _ _ H), (std_max_nan_r _ _ H).
  - unfold std_min, std_max.
    now rewrite (leb_not_ltb _ _ H1), (leb_not_ltb _ _ H2).
Qed.

(** The cube and a point without z, then a point at half its height. *)
Lemma combineWith_z_unchanged_witness :
  (zMinimum (combineWith (of_Z 15) (of_Z 15) nan cube10) = zero /\
   zMaximum (combineWith (of_Z 15) (of_Z 15) nan cube10) = of_Z 10) /\
  (zMinimum (combineWith (of_Z 15) (of_Z 15) (of_Z 5) cube10) = zero /\
   zMaximum (combineWith (of_Z 15) (of_Z 15) (of_Z 5) cube10) = of_Z 10).
Proof.
  split.
  - apply (combineWith_z_unchanged (of_Z 15) (of_Z 15) nan cube10).
    left. reflexivity.
  - apply (combineWith_z_unchanged (of_Z 15) (of_Z 15) (of_Z 5) cube10).
    right. split; reflexivity.
Defined.

(** X10: on z, [combineWith( x, y, z )] only grows the range and covers
    the point: when z and the two bounds are numbers, the new range
    contains z and the old range. *)
Theorem combineWith_z_covers x y z b :
  isnan z = false -> isnan (zMinimum b) = false -> isnan (zMaximum b) = false ->
  let b' := combineWith x y z b in
  (zMinimum b' <=? z) = true /\ (z <=? zMaximum b') = true /\
  (zMinimum b' <=? zMinimum b) = true /\ (zMaximum b <=? zMaximum b') = true.
Proof.
  intros Hz Ha Hb. unfold combineWith, zMinimum, zMaximum in *.
  cbn [mZmin mZmax].
  auto using std_min_le_l, std_min_le_r, std_max_ge_l, std_max_ge_r.
Qed.

(** The first point added to the box that setMinimal leaves. *)
Lemma combineWith_z_covers_witness :
  let b' := combineWith (of_Z 1) (of_Z 2) (of_Z 3) (setMinimal cube10) in
  (zMinimum b' <=? of_Z 3) = true /\ (of_Z 3 <=? zMaximum b') = true /\
  (zMinimum b' <=? DBL_MAX) = true /\ (- DBL_MAX <=? zMaximum b') = true.
Proof.
  apply (combineWith_z_covers (of_Z 1) (of_Z 2) (of_Z 3) (setMinimal cube10));
    reflexivity.
Defined.

(** X11: adding the same point twice gives, on z, what adding it once
    gives, whatever the values (NaN included). *)
Theorem combineWith_z_idempotent x y z b :
  zMinimum (combineWith x y z (combineWith x y z b))
  = zMinimum (combineWith x y z b) /\
  zMaximum (combineWith x y z (combineWith x y z b))
  = zMaximum (combineWith x y z b).
Proof.
  unfold combineWith, zMinimum, zMaximum. cbn [mZmin mZmax].
  unfold std_min, std_max. split.
  - destruct (z <? mZmin b) eqn:E; [|now rewrite E].
    now destruct (z <? z).
  - destruct (mZmax b <? z) eqn:E; [|now rewrite E].
    now destruct (z <? z).
Qed.

(** X12: after [combineWith( x, y, z )] the box contains (x, y, z) as
    soon as its rectangle contains (x, y): the z range never excludes the
    point just added. *)
Theorem combineWith_contains_point near rect_contains_xy x y z b :
  rect_contains_xy (mBounds2d (combineWith x y z b)) x y = true ->
  contains_xyz near rect_contains_xy (combineWith x y z b) x y z = true.
Proof.
  intros HR. unfold contains_xyz. rewrite HR. simpl.
  destruct (isnan z) eqn:Hz; [reflexivity|]. simpl.
  destruct (is2d near (combineWith x y z b)) eqn:H2; [reflexivity|].
  destruct (is2d_false_ordered near _ H2) as [_ [Ha [Hb _]]].
  unfold combineWith in *. cbn [mZmin mZmax] in *.
  now rewrite std_min_le_arg, std_max_ge_arg.
Qed.

(** A point outside the cube, added to it. *)
Lemma combineWith_contains_point_witness :
  contains_xyz near_model rect_contains_xy_model
    (combineWith (of_Z 15) (of_Z 5) (of_Z 20) cube10)
    (of_Z 15) (of_Z 5) (of_Z 20) = true.
Proof.
  apply (combineWith_contains_point near_model rect_contains_xy_model).
  reflexivity.
Defined.

(** X13: after [combineWith( box )] the receiver contains the box as
    soon as its rectangle contains the rectangle of the box: the z range
    never excludes the box just added. *)
Theorem combineWith_box_contains near rect_contains rect_combineExtentWith A B :
  rect_contains (mBounds2d (combineWith_box rect_combineExtentWith B A))
                (mBounds2d B) = true ->
  contains_box near rect_contains
    (combineWith_box rect_combineExtentWith B A) B = true.
Proof.
  intros HR. unfold contains_box. rewrite HR. simpl.
  destruct (is2d near B) eqn:HB; [reflexivity|]. simpl.
  destruct (is2d near (combineWith_box rect_combineExtentWith B A)) eqn:H2;
    [reflexivity|].
  destruct (is2d_false_ordered near _ H2) as [_ [Ha [Hb _]]].
  destruct (is2d_false_ordered near _ HB) as [_ [Ha' [Hb' _]]].
  unfold combineWith_box, zMinimum, zMaximum, geb in *.
  cbn [mZmin mZmax] in *.
  now rewrite std_min_le_arg, std_max_ge_arg.
Qed.

(** The cube grown by a cube that overlaps it. *)
Lemma combineWith_box_contains_witness :
  let other := box (of_Z 5) (of_Z 5) (of_Z 5) (of_Z 15) (of_Z 15) (of_Z 15) in
  contains_box near_model rect_contains_model
    (combineWith_box rect_combineExtentWith_model other cube10) other = true.
Proof.
  intros other.
  apply (combineWith_box_contains near_model rect_contains_model
           rect_combineExtentWith_model cube10 other).
  reflexivity.
Defined.

(** X14: adding a box that the receiver already contains leaves the z
    range of the receiver as it is, when the two boxes are 3D. *)
Theorem combineWith_box_contained near rect_contains rect_combineExtentWith A B :
  is2d near A = false -> is2d near B = false ->
  contains_box near rect_contains A B = true ->
  zMinimum (combineWith_box rect_combineExtentWith B A) = zMinimum A /\
  zMaximum (combineWith_box rect_combineExtentWith B A) = zMaximum A.
Proof.
  intros HA HB HC. unfold contains_box in HC.
  destruct (rect_contains _ _); [|discriminate]. cbn [negb] in HC.
  rewrite HA, HB in HC. cbn [orb] in HC. unfold geb in HC.
  apply andb_true_iff in HC. destruct HC as [H1 H2].
  unfold combineWith_box, zMinimum, zMaximum. cbn [mZmin mZmax].
  unfold std_min, std_max.
  now rewrite (leb_not_ltb _ _ H1), (leb_not_ltb _ _ H2).
Qed.

(** The cube grown by a smaller cube inside it. *)
Lemma combineWith_box_contained_witness :
  let inner := box (of_Z 2) (of_Z 2) (of_Z 2) (of_Z 8) (of_Z 8) (of_Z 8) in
  zMinimum (combineWith_box rect_combineExtentWith_model inner cube10) = zero /\
  zMaximum (combineWith_box rect_combineExtentWith_model inner cube10)
  = of_Z 10.
Proof.
  intros inner.
  apply (combineWith_box_contained near_model rect_contains_model
           rect_combineExtentWith_model cube10 inner); reflexivity.
Defined.

Lemma isNull_needs_z_pair r z0 z1 :
  isnan z0 = false -> (z0 ==? DBL_MAX) && (z1 ==? - DBL_MAX) = false ->
  isNull (mkBox r z0 z1) = false.
Proof.
  intros H1 H2. unfold isNull. cbn [mZmin mZmax mBounds2d].
  rewrite H1, !andb_false_r. cbn [orb].
  apply andb_false_iff in H2.
  destruct H2 as [-> | ->]; now rewrite ?andb_false_r.
Qed.

Lemma ltb_not_eqb a b : (a <? b) = true -> (a ==? b) = false.
Proof. unfold_cmp. now destruct (SFcompare a b) as [[]|]. Qed.

(** X15: the box that setMinimal leaves is null; it is not null any
    more once a point with a z (any number, infinities included) has been
    added to it, whatever the x and y of the point. *)
Theorem combineWith_setMinimal_not_null x y z b0 :
  isnan z = false ->
  isNull (setMinimal b0) = true /\
  isNull (combineWith x y z (setMinimal b0)) = false.
Proof.
  intros Hz. split; [reflexivity|].
  unfold combineWith, setMinimal, setZMinimum, setZMaximum.
  cbn [mZmin mZmax mBounds2d].
  assert (Hd : isnan DBL_MAX = false) by reflexivity.
  apply isNull_needs_z_pair; [now apply std_min_not_nan|].
  unfold std_min. destruct (z <? DBL_MAX) eqn:E.
  - now rewrite (ltb_not_eqb _ _ E).
  - pose proof (not_ltb_leb _ _ Hz Hd E) as Hle.
    assert (Hlt : (- DBL_MAX <? z) = true).
    { apply ltb_leb_trans with DBL_MAX; [reflexivity | exact Hle]. }
    unfold std_max. rewrite Hlt.
    rewrite (eqb_refl _ Hd). cbn [andb].
    apply not_true_is_false. intros He.
    apply eqb_sym in He. apply ltb_not_eqb in Hlt. congruence.
Qed.

(** The minimal box after the point (1, 2, 3), and after a point at
    infinite height. *)
Lemma combineWith_setMinimal_not_null_witness :
  isNull (combineWith (of_Z 1) (of_Z 2) (of_Z 3) (setMinimal cube10)) = false /\
  isNull (combineWith nan nan pinf (setMinimal cube10)) = false.
Proof.
  split.
  - apply (combineWith_setMinimal_not_null (of_Z 1) (of_Z 2) (of_Z 3) cube10).
    reflexivity.
  - apply (combineWith_setMinimal_not_null nan nan pinf cube10).
    reflexivity.
Defined.

(** X16: growing a 3D box never loses a point: what the box contained
    before [combineWith( x, y, z )] it contains after it, as soon as its
    new rectangle contains the (x, y) of that point.  (A 2D box ignores z
    when asked, and may lose points when it becomes 3D.) *)
Theorem combineWith_keeps_points near rect_contains_xy x y z b x' y' z' :
  is2d near b = false ->
  contains_xyz near rect_contains_xy b x' y' z' = true ->
  rect_contains_xy (mBounds2d (combineWith x y z b)) x' y' = true ->
  contains_xyz near rect_contains_xy (combineWith x y z b) x' y' z' = true.
Proof.
  intros Hb Hc HR. unfold contains_xyz in *. rewrite HR. cbn [negb].
  destruct (rect_contains_xy (mBounds2d b) x' y'); [|discriminate].
  cbn [negb] in Hc. rewrite Hb, orb_false_r in Hc.
  destruct (isnan z'); [reflexivity|]. cbn [orb].
  destruct (is2d near (combineWith x y z b)); [reflexivity|].
  destruct (is2d_false_ordered near b Hb) as [_ [Ha [Hm _]]].
  apply andb_true_iff in Hc. destruct Hc as [H1 H2].
  unfold combineWith. cbn [mZmin mZmax].
  pose proof (std_min_le_self _ z Ha (std_min_keeps_number _ z Ha)) as L1.
  pose proof (std_max_ge_self _ z Hm (std_max_keeps_number _ z Hm)) as L2.
  now rewrite (leb_trans _ _ _ L1 H1), (leb_trans _ _ _ H2 L2).
Qed.

(** The cube grown by a point above it still contains its center. *)
Lemma combineWith_keeps_points_witness :
  contains_xyz near_model rect_contains_xy_model
    (combineWith (of_Z 5) (of_Z 5) (of_Z 20) cube10)
    (of_Z 5) (of_Z 5) (of_Z 5) = true.
Proof.
  apply (combineWith_keeps_points near_model rect_contains_xy_model);
    reflexivity.
Defined.

(** ** Intersection *)

(** X17: [intersects] in terms of [intersect]: two boxes intersect when
    their rectangles do and either one of them is 2D or the box that
    [intersect] builds without normalising has zmin <= zmax. *)
Theorem intersects_as_intersect near A B :
  intersects near A B
  = Rect.intersects (mBounds2d A) (mBounds2d B)
    && (is2d near B || is2d near A
        || (zMinimum (intersect false A B) <=? zMaximum (intersect false A B))).
Proof.
  unfold intersects. destruct (Rect.intersects _ _); [|reflexivity]. simpl.
  destruct (is2d near B) eqn:HB; [reflexivity|].
  destruct (is2d near A) eqn:HA; [reflexivity|]. simpl.
  destruct (is2d_false_ordered near A HA) as [_ [Ha [Hb _]]].
  destruct (is2d_false_ordered near B HB) as [_ [Ha' [Hb' _]]].
  unfold gtb.
  change ((std_max (mZmin B) (mZmin A) <=? std_min (mZmax B) (mZmax A))
          = (std_max (mZmin A) (mZmin B) <=? std_min (mZmax A) (mZmax B))).
  now apply overlap_comm.
Qed.

(** X18: two 3D boxes whose z ranges are disjoint (the one lies below
    the other) do not intersect; [intersect] still returns a box: built
    without normalising, its z range is inverted (zmin of the upper box,
    zmax of the lower one); built with normalising, it is the gap between
    the two boxes. *)
Theorem intersect_of_disjoint_z near A B :
  is2d near A = false -> is2d near B = false ->
  (zMaximum A <? zMinimum B) = true ->
  intersects near A B = false /\
  zMinimum (intersect false A B) = zMinimum B /\
  zMaximum (intersect false A B) = zMaximum A /\
  zMinimum (intersect true A B) = zMaximum A /\
  zMaximum (intersect true A B) = zMinimum B.
Proof.
  intros HA HB Hlt. unfold zMinimum, zMaximum in *.
  destruct (is2d_false_ordered near A HA) as [_ [_ [_ HleA]]].
  destruct (is2d_false_ordered near B HB) as [_ [_ [_ HleB]]].
  pose proof (leb_ltb_trans _ _ _ HleA Hlt) as Hmin.
  pose proof (ltb_leb_trans _ _ _ Hlt HleB) as Hmax.
  pose proof (ltb_asym _ _ Hlt) as Hlt'.
  pose proof (ltb_asym _ _ Hmin) as Hmin'.
  pose proof (ltb_asym _ _ Hmax) as Hmax'.
  split.
  - unfold intersects. destruct (Rect.intersects _ _); [|reflexivity]. simpl.
    rewrite HA, HB. simpl. unfold gtb. rewrite Hmin', Hmax.
    destruct (mZmin B <=? mZmax A) eqn:E; [|reflexivity].
    rewrite (leb_not_ltb _ _ E) in Hlt. discriminate.
  - unfold intersect, new_QgsBox3D, normalize. cbn [mZmin mZmax].
    unfold std_max, std_min. rewrite Hmin, Hmax'. rewrite Hlt, Hlt'.
    repeat split.
Qed.

(** The cube and the same cube twenty units higher. *)
Lemma intersect_of_disjoint_z_witness :
  let upper := box zero zero (of_Z 20) (of_Z 10) (of_Z 10) (of_Z 30) in
  intersects near_model cube10 upper = false /\
  zMinimum (intersect false cube10 upper) = of_Z 20 /\
  zMaximum (intersect false cube10 upper) = of_Z 10 /\
  zMinimum (intersect true cube10 upper) = of_Z 10 /\
  zMaximum (intersect true cube10 upper) = of_Z 20.
Proof.
  intros upper.
  apply (intersect_of_disjoint_z near_model cube10 upper); reflexivity.
Defined.

(** X19: each of two boxes contains the box that [intersect] builds from
    them without normalising, as soon as its rectangle contains the
    rectangle of that box. *)
Theorem intersect_contained near rect_contains A B :
  rect_contains (mBounds2d A) (mBounds2d (intersect false A B)) = true ->
  rect_contains (mBounds2d B) (mBounds2d (intersect false A B)) = true ->
  contains_box near rect_contains A (intersect false A B) = true /\
  contains_box near rect_contains B (intersect false A B) = true.
Proof.
  intros HRA HRB. unfold contains_box. rewrite HRA, HRB. cbn [negb].
  destruct (is2d near (intersect false A B)) eqn:HI; [now split|].
  cbn [orb].
  destruct (is2d_false_ordered near _ HI) as [_ [Ha [Hb _]]].
  unfold intersect, new_QgsBox3D, geb in *. cbn [mZmin mZmax] in *.
  split.
  - destruct (is2d near A) eqn:HA; [reflexivity|].
    destruct (is2d_false_ordered near _ HA) as [_ [Ha' [Hb' _]]].
    now rewrite std_max_ge_self, std_min_le_self.
  - destruct (is2d near B) eqn:HB; [reflexivity|].
    destruct (is2d_false_ordered near _ HB) as [_ [Ha' [Hb' _]]].
    now rewrite std_max_ge_arg, std_min_le_arg.
Qed.

(** Two overlapping cubes. *)
Lemma intersect_contained_witness :
  let other := box (of_Z 5) (of_Z 5) (of_Z 5) (of_Z 15) (of_Z 15) (of_Z 15) in
  contains_box near_model rect_contains_model cube10
    (intersect false cube10 other) = true /\
  contains_box near_model rect_contains_model other
    (intersect false cube10 other) = true.
Proof.
  intros other.
  apply (intersect_contained near_model rect_contains_model cube10 other);
    reflexivity.
Defined.

(** X20: the box that [intersect] builds without normalising from a 3D
    box and a 3D box that contains it has the z range of the contained
    box. *)
Theorem intersect_with_container near rect_contains A B :
  is2d near A = false -> is2d near B = false ->
  contains_box near rect_contains B A = true ->
  zMinimum (intersect false A B) = zMinimum A /\
  zMaximum (intersect false A B) = zMaximum A.
Proof.
  intros HA HB HC. unfold contains_box in HC.
  destruct (rect_contains _ _); [|discriminate]. cbn [negb] in HC.
  rewrite HA, HB in HC. cbn [orb] in HC. unfold geb in HC.
  apply andb_true_iff in HC. destruct HC as [H1 H2].
  unfold intersect, new_QgsBox3D, zMinimum, zMaximum. cbn [mZmin mZmax].
  unfold std_min, std_max.
  now rewrite (leb_not_ltb _ _ H1), (leb_not_ltb _ _ H2).
Qed.

(** A small cube intersected with the cube around it. *)
Lemma intersect_with_container_witness :
  let inner := box (of_Z 2) (of_Z 2) (of_Z 2) (of_Z 8) (of_Z 8) (of_Z 8) in
  zMinimum (intersect false inner cube10) = of_Z 2 /\
  zMaximum (intersect false inner cube10) = of_Z 8.
Proof.
  intros inner.
  apply (intersect_with_container near_model rect_contains_model
           inner cube10); reflexivity.
Defined.

(** ** The gaps of finite inputs *)

Lemma sub_finite_not_nan x y :
  is_finite x = true -> is_finite y = true -> isnan (x - y) = false.
Proof.
  destruct x as [sx|sx| |sx mx ex], y as [sy|sy| |sy my ey];
    intros Hx Hy; try discriminate; try reflexivity.
  - now destruct sx, sy.
  - unfold sub, SFsub.
    destruct (cond_Zopp sx _ - cond_Zopp sy _)%Z as [|d|d];
      cbn [binary_normalize]; [reflexivity| |].
    + pose proof (Sign.binary_round_signed false d (Z.min ex ey)) as H.
      now destruct (binary_round _ _ _ _ _).
    + pose proof (Sign.binary_round_signed true d (Z.min ex ey)) as H.
      now destruct (binary_round _ _ _ _ _).
Qed.

Lemma nested_gap_not_negative lo hi c :
  is_finite lo = true -> is_finite hi = true -> is_finite c = true ->
  (zero <=? nested_gap lo hi c) = true.
Proof.
  intros Hlo Hhi Hc. unfold nested_gap.
  pose proof (sub_finite_not_nan lo c Hlo Hc) as Ha.
  pose proof (sub_finite_not_nan c hi Hc Hhi) as Hb.
  assert (Hz : isnan zero = false) by reflexivity.
  pose proof (std_max_not_nan _ _ Hz Hb) as Hm.
  apply leb_trans with (std_max zero (c - hi)).
  - now apply std_max_ge_l.
  - now apply std_max_ge_r.
Qed.

(** X21: for a box with finite bounds and a point with finite x and y,
    and a z that is finite or absent (NaN), the gaps that [distanceTo]
    hands to [std::hypot] are numbers and none is negative (a gap may be
    +infinity, when a difference overflows). *)
Theorem distanceTo_gaps_not_negative near hypot hypot3 b p :
  finite_bounds b ->
  is_finite (vx p) = true -> is_finite (vy p) = true ->
  is_finite (vz p) = true \/ isnan (vz p) = true ->
  let gx := nested_gap (xMinimum b) (xMaximum b) (vx p) in
  let gy := nested_gap (yMinimum b) (yMaximum b) (vy p) in
  let gz := nested_gap (zMinimum b) (zMaximum b) (vz p) in
  distanceTo near hypot hypot3 b p
  = (if is2d near b || isnan (vz p) then hypot gx gy else hypot3 gx gy gz) /\
  (zero <=? gx) = true /\ (zero <=? gy) = true /\
  (isnan (vz p) = true \/ (zero <=? gz) = true).
Proof.
  intros [Fx0 [Fy0 [Fz0 [Fx1 [Fy1 Fz1]]]]] Fx Fy Fz gx gy gz.
  split; [reflexivity|].
  split; [now apply nested_gap_not_negative|].
  split; [now apply nested_gap_not_negative|].
  destruct Fz as [Fz | Fz]; [right | now left].
  now apply nested_gap_not_negative.
Qed.

(** A point outside the cube on the three axes: its gaps are 5, 5, 5. *)
Lemma distanceTo_gaps_not_negative_witness :
  let p := mkVector3D (of_Z 15) (of_Z 15) (of_Z 15) in
  distanceTo near_model hypot_model hypot3_model cube10 p
  = hypot3_model (of_Z 5) (of_Z 5) (of_Z 5) /\
  (zero <=? of_Z 5) = true.
Proof.
  intros p.
  destruct (distanceTo_gaps_not_negative near_model hypot_model hypot3_model
              cube10 p) as [H [Hx _]];
    [repeat split | reflexivity | reflexivity | left; reflexivity | ].
  split; [exact H | exact Hx].
Defined.

(** ** Scaling: NaN, fixed corners, midpoints *)

Lemma scaled_nan_factor x c f : isnan f = true -> c + (x - c) * f = nan.
Proof.
  intros H. destruct f; try discriminate.
  destruct (x - c) as [[]|[]| |[]], c as [[]|[]| |[]]; reflexivity.
Qed.

Lemma scaled_nan_bound x c f : isnan x = true -> c + (x - c) * f = nan.
Proof.
  intros H. destruct x; try discriminate.
  destruct c as [[]|[]| |[]], f as [[]|[]| |[]]; reflexivity.
Qed.

(** X22: scaling by a NaN factor, about any center, turns every box
    into the all-NaN box, and scaling the all-NaN box, by any factor about
    any center, leaves it as it is; the result is null. *)
Theorem scale_nan f cx cy cz b :
  isnan f = true \/ all_bounds_nan b ->
  scale f cx cy cz b = null_box /\ isNull (scale f cx cy cz b) = true.
Proof.
  intros H.
  assert (E : scale f cx cy cz b = null_box).
  { destruct b as [[x0 y0 x1 y1] z0 z1]. unfold all_bounds_nan in H.
    unfold scale, setXMinimum, setXMaximum, setYMinimum, setYMaximum,
      setZMinimum, setZMaximum, xMinimum, xMaximum, yMinimum, yMaximum,
      zMinimum, zMaximum, Rect.setXMinimum, Rect.setXMaximum,
      Rect.setYMinimum, Rect.setYMaximum, Rect.xMinimum, Rect.xMaximum,
      Rect.yMinimum, Rect.yMaximum in *.
    cbn [mBounds2d mZmin mZmax mXmin mXmax mYmin mYmax] in *.
    destruct H as [H | H].
    - now rewrite !(scaled_nan_factor _ _ f H).
    - decompose [and] H. subst.
      now rewrite !scaled_nan_bound by reflexivity. }
  rewrite E. split; reflexivity.
Qed.

(** The cube scaled by NaN about the origin. *)
Lemma scale_nan_witness :
  scale nan zero zero zero cube10 = null_box /\
  isNull (scale nan zero zero zero cube10) = true.
Proof.
  apply (scale_nan nan zero zero zero cube10). left. reflexivity.
Defined.

Lemma scaled_fixed c f :
  is_finite c = true -> is_finite f = true -> (c + (c - c) * f ==? c) = true.
Proof.
  intros Hc Hf. rewrite sub_diag, Hc.
  destruct c as [[]|[]| |sc mc ec], f as [[]|[]| |[] mf ef];
    try discriminate; try reflexivity;
    unfold mul, add, SFmul, SFadd, zero; apply eqb_refl; reflexivity.
Qed.

(** X23: scaling about the minimum corner of a box leaves that corner
    where it is, for every finite factor. *)
Theorem scale_about_minimum_corner f b :
  is_finite f = true ->
  is_finite (xMinimum b) = true -> is_finite (yMinimum b) = true ->
  is_finite (zMinimum b) = true ->
  let b' := scale f (xMinimum b) (yMinimum b) (zMinimum b) b in
  (xMinimum b' ==? xMinimum b) = true /\
  (yMinimum b' ==? yMinimum b) = true /\
  (zMinimum b' ==? zMinimum b) = true.
Proof.
  intros Hf Hx Hy Hz b'. unfold b'.
  destruct (scale_bounds f (xMinimum b) (yMinimum b) (zMinimum b) b)
    as [-> [_ [-> [_ [-> _]]]]].
  auto using scaled_fixed.
Qed.

(** The cube scaled by 3 about its minimum corner, the origin. *)
Lemma scale_about_minimum_corner_witness :
  let b' := scale (of_Z 3) zero zero zero cube10 in
  (xMinimum b' ==? zero) = true /\ (yMinimum b' ==? zero) = true /\
  (zMinimum b' ==? zero) = true.
Proof.
  apply (scale_about_minimum_corner (of_Z 3) cube10); reflexivity.
Defined.

Lemma midpoint_overflow lo hi f :
  is_finite lo = true -> is_finite hi = true -> lo + hi = pinf ->
  (zero <? f) = true ->
  let c := (lo + hi) / of_Z 2 in
  c + (lo - c) * f = nan /\ c + (hi - c) * f = nan.
Proof.
  intros Hlo Hhi E Hf c. unfold c. rewrite E.
  replace (pinf / of_Z 2) with pinf by (vm_compute; reflexivity).
  destruct lo as [[]|[]| |[] ml el], hi as [[]|[]| |[] mh eh];
    try discriminate Hlo; try discriminate Hhi;
    destruct f as [[]|[]| |[] mf ef]; try discriminate Hf;
    split; reflexivity.
Qed.

(** X24: when [scale] is given an empty point as center, it scales
    about the midpoint (min + max) / 2 of each axis; if the sum of two
    finite z bounds overflows, the midpoint is +infinity and both z
    bounds become NaN, for every positive factor (likewise on x and y). *)
Theorem scale_point_midpoint_overflow point_isEmpty f center b :
  point_isEmpty center = true ->
  is_finite (zMinimum b) = true -> is_finite (zMaximum b) = true ->
  zMinimum b + zMaximum b = pinf ->
  (zero <? f) = true ->
  isnan (zMinimum (scale_point point_isEmpty f center b)) = true /\
  isnan (zMaximum (scale_point point_isEmpty f center b)) = true.
Proof.
  intros He Hlo Hhi E Hf. unfold scale_point. rewrite He. cbn [negb].
  destruct (midpoint_overflow _ _ f Hlo Hhi E Hf) as [E1 E2].
  destruct (scale_bounds f ((xMinimum b + xMaximum b) / of_Z 2)
              ((yMinimum b + yMaximum b) / of_Z 2)
              ((zMinimum b + zMaximum b) / of_Z 2) b)
    as [_ [_ [_ [_ [-> ->]]]]].
  rewrite E1, E2. split; reflexivity.
Qed.

(** A box whose z bounds are both the largest double, scaled by 1.0
    about its own center. *)
Lemma scale_point_midpoint_overflow_witness :
  let b := box zero zero DBL_MAX one one DBL_MAX in
  let b' := scale_point point_isEmpty_model one (mkQgsPoint nan nan nan) b in
  isnan (zMinimum b') = true /\ isnan (zMaximum b') = true.
Proof.
  intros b.
  apply (scale_point_midpoint_overflow point_isEmpty_model one
           (mkQgsPoint nan nan nan) b); reflexivity.
Defined.

(** ** Mirroring: scale does not normalise *)

Lemma binary_round_aux_opp s m e l :
  opp (binary_round_aux prec emax s m e l)
  = binary_round_aux prec emax (negb s) m e l.
Proof.
  unfold binary_round_aux.
  destruct (shr_fexp prec emax m e l) as [mrs' e'].
  destruct (shr_fexp prec emax _ e' loc_Exact) as [mrs'' e''].
  destruct (shr_m mrs''); try reflexivity.
  now destruct (e'' <=? emax - prec)%Z.
Qed.

Lemma mul_opp_one x : valid x = true -> x * opp one = opp x.
Proof.
  intros Hv. rewrite <- (Exact.mul_one x Hv) at 2.
  destruct x as [[]|[]| |s m e]; try reflexivity.
  unfold mul, one, opp, SFmul, SFopp.
  change (match binary_round_aux prec emax (xorb s false)
                  (Zpos (m * 4503599627370496)) (e + -52) loc_Exact with
          | S754_zero sx => S754_zero (negb sx)
          | S754_infinity sx => S754_infinity (negb sx)
          | S754_nan => S754_nan
          | S754_finite sx mx ex => S754_finite (negb sx) mx ex
          end)
    with (opp (binary_round_aux prec emax (xorb s false)
                 (Zpos (m * 4503599627370496)) (e + -52) loc_Exact)).
  rewrite binary_round_aux_opp. now destruct s.
Qed.

Lemma compare_opp a b : SFcompare (opp a) (opp b) = SFcompare b a.
Proof.
  rewrite (compare_antisym a b).
  destruct a as [[]|[]| |[] m1 e1], b as [[]|[]| |[] m2 e2]; try reflexivity;
    simpl; destruct (Z.compare e1 e2); try reflexivity;
    change (Pos.compare_cont Eq m1 m2) with (Pos.compare m1 m2);
    destruct (Pos.compare m1 m2); reflexivity.
Qed.

Lemma ltb_opp a b : (opp a <? opp b) = (b <? a).
Proof. unfold ltb, SFltb. now rewrite compare_opp. Qed.

Lemma mirrored x :
  finite_double x = true -> (zero + (x - zero) * opp one ==? opp x) = true.
Proof.
  intros H. apply finite_double_inv in H. destruct H as [Hv [Hf _]].
  replace (x - zero) with x
    by (destruct x as [[]|[]| |[] m e]; try discriminate Hf; reflexivity).
  rewrite (mul_opp_one x Hv).
  destruct x as [[]|[]| |[] m e]; try discriminate Hf; try reflexivity;
    unfold add, SFadd, zero, opp, SFopp; apply eqb_refl; reflexivity.
Qed.

(** X25: [scale] does not normalise.  Scaling a box with finite bounds
    by -1.0 about the origin negates each bound in place: the new minimum
    is the negated old minimum, so that on every axis where the box had
    min < max it now has max < min. *)
Theorem scale_mirror_inverts b :
  finite_box b ->
  let b' := scale (opp one) zero zero zero b in
  same_bounds b' (box (- xMinimum b) (- yMinimum b) (- zMinimum b)
                      (- xMaximum b) (- yMaximum b) (- zMaximum b)) /\
  (xMaximum b' <? xMinimum b') = (xMinimum b <? xMaximum b) /\
  (yMaximum b' <? yMinimum b') = (yMinimum b <? yMaximum b) /\
  (zMaximum b' <? zMinimum b') = (zMinimum b <? zMaximum b).
Proof.
  intros [Fx0 [Fy0 [Fz0 [Fx1 [Fy1 Fz1]]]]] b'. unfold b'.
  destruct (scale_bounds (opp one) zero zero zero b)
    as [Ex0 [Ex1 [Ey0 [Ey1 [Ez0 Ez1]]]]].
  pose proof (mirrored _ Fx0) as Mx0. pose proof (mirrored _ Fx1) as Mx1.
  pose proof (mirrored _ Fy0) as My0. pose proof (mirrored _ Fy1) as My1.
  pose proof (mirrored _ Fz0) as Mz0. pose proof (mirrored _ Fz1) as Mz1.
  rewrite <- Ex0 in Mx0. rewrite <- Ex1 in Mx1. rewrite <- Ey0 in My0.
  rewrite <- Ey1 in My1. rewrite <- Ez0 in Mz0. rewrite <- Ez1 in Mz1.
  split; [repeat split; assumption|].
  rewrite (ltb_eqb_compat _ _ _ _ Mx1 Mx0), (ltb_eqb_compat _ _ _ _ My1 My0),
    (ltb_eqb_compat _ _ _ _ Mz1 Mz0), !ltb_opp.
  repeat split.
Qed.

(** The cube mirrored through the origin: its bounds are 0 and -10, in
    that order. *)
Lemma scale_mirror_inverts_witness :
  let b' := scale (opp one) zero zero zero cube10 in
  same_bounds b' (box (- zero) (- zero) (- zero)
                      (- of_Z 10) (- of_Z 10) (- of_Z 10)) /\
  (xMaximum b' <? xMinimum b') = true /\
  (yMaximum b' <? yMinimum b') = true /\
  (zMaximum b' <? zMinimum b') = true.
Proof.
  apply (scale_mirror_inverts cube10). repeat split.
Defined.

(** ** Empty boxes and 2D boxes *)

(** X26: for a box whose z bounds are numbers, [isEmpty] answers what
    [is2d] answers, unless the rectangle is empty, as soon as the
    tolerance test gives the same for (zmax, zmin) as for (zmin, zmax);
    the two methods pass the bounds in opposite orders. *)
Theorem isEmpty_as_is2d near rect_isEmpty b :
  near (zMaximum b) (zMinimum b) = near (zMinimum b) (zMaximum b) ->
  isnan (zMinimum b) = false -> isnan (zMaximum b) = false ->
  isEmpty near rect_isEmpty b = is2d near b || rect_isEmpty (mBounds2d b).
Proof.
  unfold isEmpty, is2d, gtb, zMinimum, zMaximum. intros -> -> ->.
  rewrite !orb_false_r.
  now destruct (mZmax b <? mZmin b), (near (mZmin b) (mZmax b)).
Qed.

(** The cube is neither; a flat box is both. *)
Lemma isEmpty_as_is2d_witness :
  let flat := box zero zero (of_Z 5) (of_Z 10) (of_Z 10) (of_Z 5) in
  isEmpty near_model (rect_isEmpty_model near_model) cube10 = false /\
  isEmpty near_model (rect_isEmpty_model near_model) flat
  = is2d near_model flat || rect_isEmpty_model near_model (mBounds2d flat).
Proof.
  intros flat. split; [vm_compute; reflexivity|].
  apply (isEmpty_as_is2d near_model (rect_isEmpty_model near_model) flat);
    reflexivity.
Defined.

(** ** The constructor from two corners *)

(** X27: a box built from two corner points with normalising contains
    both corners, as soon as its rectangle contains their (x, y): on z
    the two corners may come in either order. *)
Theorem new_QgsBox3D_points_contains_corners near rect_contains_xy p1 p2 :
  let b := new_QgsBox3D_points p1 p2 true in
  rect_contains_xy (mBounds2d b) (Point.x p1) (Point.y p1) = true ->
  rect_contains_xy (mBounds2d b) (Point.x p2) (Point.y p2) = true ->
  contains_xyz near rect_contains_xy b
    (Point.x p1) (Point.y p1) (Point.z p1) = true /\
  contains_xyz near rect_contains_xy b
    (Point.x p2) (Point.y p2) (Point.z p2) = true.
Proof.
  intros b H1 H2. unfold contains_xyz. rewrite H1, H2. cbn [negb].
  destruct (is2d near b) eqn:Hb;
    [rewrite !orb_true_r; now split|]. rewrite !orb_false_r.
  destruct (is2d_false_ordered near _ Hb) as [_ [Ha [Hc _]]].
  unfold b, new_QgsBox3D_points, normalize in *. cbn [mZmin mZmax] in *.
  split.
  - destruct (isnan (Point.z p1)) eqn:E; [reflexivity|].
    now rewrite std_min_le_self, std_max_ge_self.
  - destruct (isnan (Point.z p2)) eqn:E; [reflexivity|].
    now rewrite std_min_le_arg, std_max_ge_arg.
Qed.

(** Two corners given from top to bottom. *)
Lemma new_QgsBox3D_points_contains_corners_witness :
  let p1 := mkQgsPoint (of_Z 10) (of_Z 10) (of_Z 10) in
  let p2 := mkQgsPoint zero zero zero in
  let b := new_QgsBox3D_points p1 p2 true in
  contains_xyz near_model rect_contains_xy_model b
    (of_Z 10) (of_Z 10) (of_Z 10) = true /\
  contains_xyz near_model rect_contains_xy_model b zero zero zero = true.
Proof.
  intros p1 p2.
  apply (new_QgsBox3D_points_contains_corners near_model
           rect_contains_xy_model p1 p2); reflexivity.
Defined.
